(** * Klipper: generic interrupt based timer helpers ([src/generic/timer_irq.c])

  A shallow embedding of the timer dispatch core and the properties of it
  that the specification states.

  - [uint32_t] values are integers in [[0, 2^32)]; every C operation that can
    wrap has its reduction modulo [2^32] written out ([u32]); the cast
    [(int32_t)] is [s32].
  - The file-level statics [timer_repeat_until] and [last_timer] are fields
    of [State].  Code outside this file cannot name them.
  - The functions the file calls but does not define ([timer_read_time],
    [sched_timer_dispatch], [timer_get_next], [irq_disable], [irq_enable],
    [irq_wait], [stats_note_sleep]) are the operations of a [Board]; they act
    on an opaque environment.  [shutdown] does not return: it ends the
    computation with the outcome [Fatal].  The embedding is of one sequential
    call: what interrupt handlers do while interrupts are enabled is part of
    what the board does to its environment.
  - [CONFIG_CLOCK_FREQ] comes from [autoconf.h], which is generated by the
    build; it is a parameter.  Statements that need a microsecond to be at
    least one tick, or a millisecond of ticks to be a positive [int32_t], say
    so by the hypothesis [1000000 <= CONFIG_CLOCK_FREQ < 2 ^ 32].
  - Every call of a collaborator and every store to a static is appended to
    a chronological [trace], so that statements such as "called exactly
    once" or "before any write" can be made.
  - [for (;;)] and the busy-wait [while] take fuel; running out of it is the
    outcome [OutOfFuel], distinct from a normal return and from a shutdown. *)

From Stdlib Require Import ZArith List String Bool Lia.
Import ListNotations.
Local Open Scope Z_scope.

(** ** 32-bit machine arithmetic *)

Module Word32.

Definition modulus : Z := 2 ^ 32.
Definition half_modulus : Z := 2 ^ 31.

(** The value of an integer expression stored in a [uint32_t]. *)
Definition u32 (x : Z) : Z := x mod modulus.

(** The cast [(int32_t)x]: two's complement reading of the low 32 bits. *)
Definition s32 (x : Z) : Z :=
  let y := u32 x in if y <? half_modulus then y else y - modulus.

End Word32.
Import Word32.

(** ** Observable events *)

Inductive Event : Type :=
| Ev_timer_read_time (v : Z)
| Ev_sched_timer_dispatch (v : Z)
| Ev_timer_get_next (v : Z)
| Ev_irq_disable
| Ev_irq_enable
| Ev_irq_wait
| Ev_stats_note_sleep (v : Z)
| Ev_shutdown (reason : string)
| Ev_store_timer_repeat_until (v : Z)
| Ev_store_last_timer (v : Z).

Definition is_shutdown (e : Event) : bool :=
  match e with Ev_shutdown _ => true | _ => false end.

Definition is_sched_timer_dispatch (e : Event) : bool :=
  match e with Ev_sched_timer_dispatch _ => true | _ => false end.

Definition is_irq_wait (e : Event) : bool :=
  match e with Ev_irq_wait => true | _ => false end.

Definition is_store_timer_repeat_until (e : Event) : bool :=
  match e with Ev_store_timer_repeat_until _ => true | _ => false end.

Definition is_store_last_timer (e : Event) : bool :=
  match e with Ev_store_last_timer _ => true | _ => false end.

(** Neither a shutdown nor a store to [timer_repeat_until]. *)
Definition is_quiet (e : Event) : bool :=
  negb (is_shutdown e) && negb (is_store_timer_repeat_until e).

(** Number of events of a trace that satisfy [p]. *)
Definition count (p : Event -> bool) (t : list Event) : nat :=
  List.length (List.filter p t).

(** The value of the most recent [timer_read_time] of a trace. *)
Fixpoint last_read (t : list Event) : option Z :=
  match t with
  | [] => None
  | e :: t' =>
      match last_read t' with
      | Some v => Some v
      | None => match e with Ev_timer_read_time v => Some v | _ => None end
      end
  end.

Definition is_irq_enable (e : Event) : bool :=
  match e with Ev_irq_enable => true | _ => false end.

Definition is_irq_disable (e : Event) : bool :=
  match e with Ev_irq_disable => true | _ => false end.

(** The events a dispatch pass can produce: it never sleeps, never peeks at
    the queue, never reports statistics and never touches [last_timer]. *)
Definition is_dispatch_event (e : Event) : bool :=
  match e with
  | Ev_timer_get_next _ | Ev_irq_wait | Ev_stats_note_sleep _
  | Ev_store_last_timer _ => false
  | _ => true
  end.

(** Interrupt masking along a trace.  [masked] tells whether interrupts are
    disabled before the first event; the result is [None] when the trace
    breaks the discipline, and otherwise tells whether interrupts are disabled
    after the last event.  The discipline: the queue is called, the processor
    is put to sleep, [timer_repeat_until] is stored to and [shutdown] is
    called only with interrupts disabled; [irq_enable] is called only with
    interrupts disabled and [irq_disable] only with interrupts enabled.
    [irq_wait] returns with interrupts disabled. *)
Fixpoint irq_discipline (masked : bool) (t : list Event) : option bool :=
  match t with
  | [] => Some masked
  | e :: t' =>
      match e with
      | Ev_irq_enable => if masked then irq_discipline false t' else None
      | Ev_irq_disable => if masked then None else irq_discipline true t'
      | Ev_sched_timer_dispatch _ | Ev_timer_get_next _ | Ev_irq_wait
      | Ev_store_timer_repeat_until _ | Ev_shutdown _ =>
          if masked then irq_discipline true t' else None
      | Ev_timer_read_time _ | Ev_stats_note_sleep _
      | Ev_store_last_timer _ => irq_discipline masked t'
      end
  end.

(** Every busy-wait ends ([Ev_irq_disable]) when the latest clock reading
    [now] is at or past the latest deadline [next] that the queue returned. *)
Fixpoint waits_until_due (next now : Z) (t : list Event) : bool :=
  match t with
  | [] => true
  | e :: t' =>
      match e with
      | Ev_sched_timer_dispatch v => waits_until_due v now t'
      | Ev_timer_read_time v => waits_until_due next v t'
      | Ev_irq_disable =>
          (s32 (u32 (next - now)) <=? 0) && waits_until_due next now t'
      | _ => waits_until_due next now t'
      end
  end.

(** ** The collaborators *)

Class Board (Env : Type) : Type := {
  board_timer_read_time : Env -> Z * Env;
  board_sched_timer_dispatch : Env -> Z * Env;
  board_timer_get_next : Env -> Z * Env;
  board_irq_disable : Env -> Env;
  board_irq_enable : Env -> Env;
  board_irq_wait : Env -> Env;
  board_stats_note_sleep : Z -> Env -> Env
}.

(** ** Program state and the monad of the embedding *)

Record State (Env : Type) : Type := mkState {
  timer_repeat_until : Z;
  last_timer : Z;
  env : Env;
  trace : list Event
}.
Arguments mkState {Env} _ _ _ _.
Arguments timer_repeat_until {Env} _.
Arguments last_timer {Env} _.
Arguments env {Env} _.
Arguments trace {Env} _.

Inductive Outcome (Env A : Type) : Type :=
| Done (a : A) (w : State Env)
| Fatal (reason : string) (w : State Env)
| OutOfFuel.
Arguments Done {Env A} _ _.
Arguments Fatal {Env A} _ _.
Arguments OutOfFuel {Env A}.

(** The state in which a computation has ended, by a return or by a
    shutdown. *)
Definition final_state {Env A : Type} (o : Outcome Env A)
  : option (State Env) :=
  match o with
  | Done _ w => Some w
  | Fatal _ w => Some w
  | OutOfFuel => None
  end.

Definition M (Env A : Type) : Type := State Env -> Outcome Env A.

Definition ret {Env A : Type} (a : A) : M Env A := fun w => Done a w.

Definition bind {Env A B : Type} (m : M Env A) (k : A -> M Env B) : M Env B :=
  fun w =>
    match m w with
    | Done a w' => k a w'
    | Fatal r w' => Fatal r w'
    | OutOfFuel => OutOfFuel
    end.

Declare Scope timer_scope.
Delimit Scope timer_scope with timer.
Notation "x <- m ;; k" := (bind m (fun x => k))
  (at level 61, m at next level, right associativity) : timer_scope.
Notation "m ;; k" := (bind m (fun _ => k))
  (at level 61, right associativity) : timer_scope.
Local Open Scope timer_scope.

(** ** A scripted board

    The clock, the queue's dispatch operation and its peek operation answer
    from three lists, front first, and answer 0 once a list is used up.  It is
    the stub the concrete runs below are made with. *)

Record Script : Type := mkScript {
  clock_readings : list Z;
  dispatch_results : list Z;
  next_deadlines : list Z
}.

Definition pop (l : list Z) : Z * list Z :=
  match l with
  | [] => (0, [])
  | x :: l' => (x, l')
  end.

#[global] Instance scripted_board : Board Script := {|
  board_timer_read_time s :=
    let (v, l) := pop (clock_readings s) in
    (v, mkScript l (dispatch_results s) (next_deadlines s));
  board_sched_timer_dispatch s :=
    let (v, l) := pop (dispatch_results s) in
    (v, mkScript (clock_readings s) l (next_deadlines s));
  board_timer_get_next s :=
    let (v, l) := pop (next_deadlines s) in
    (v, mkScript (clock_readings s) (dispatch_results s) l);
  board_irq_disable s := s;
  board_irq_enable s := s;
  board_irq_wait s := s;
  board_stats_note_sleep _ s := s
|}.

(** A state in which nothing has happened yet, with the given values of
    [timer_repeat_until] and [last_timer]. *)
Definition boot (tru lst : Z) (s : Script) : State Script :=
  mkState tru lst s [].

Section TimerIrq.

(** The build-time clock frequency in Hz, from [autoconf.h]. *)
Variable CONFIG_CLOCK_FREQ : Z.

Context {Env : Type} {board : Board Env}.

Definition log (e : Event) (w : State Env) : State Env :=
  mkState (timer_repeat_until w) (last_timer w) (env w) (trace w ++ [e]).

Definition with_env (e : Env) (w : State Env) : State Env :=
  mkState (timer_repeat_until w) (last_timer w) e (trace w).

(** *** Calls of the collaborators.  A returned [uint32_t] is reduced to 32
    bits at the call. *)

Definition timer_read_time : M Env Z := fun w =>
  let (v, e) := board_timer_read_time (env w) in
  Done (u32 v) (log (Ev_timer_read_time (u32 v)) (with_env e w)).

Definition sched_timer_dispatch : M Env Z := fun w =>
  let (v, e) := board_sched_timer_dispatch (env w) in
  Done (u32 v) (log (Ev_sched_timer_dispatch (u32 v)) (with_env e w)).

Definition timer_get_next : M Env Z := fun w =>
  let (v, e) := board_timer_get_next (env w) in
  Done (u32 v) (log (Ev_timer_get_next (u32 v)) (with_env e w)).

Definition irq_disable : M Env unit := fun w =>
  Done tt (log Ev_irq_disable (with_env (board_irq_disable (env w)) w)).

Definition irq_enable : M Env unit := fun w =>
  Done tt (log Ev_irq_enable (with_env (board_irq_enable (env w)) w)).

Definition irq_wait : M Env unit := fun w =>
  Done tt (log Ev_irq_wait (with_env (board_irq_wait (env w)) w)).

Definition stats_note_sleep (v : Z) : M Env unit := fun w =>
  Done tt (log (Ev_stats_note_sleep v)
             (with_env (board_stats_note_sleep v (env w)) w)).

(** [shutdown(msg)] never returns to its caller.  The outcome carries the
    state at the call; what the shutdown machinery of [sched.c] does after it
    is not part of this file. *)
Definition shutdown {A : Type} (reason : string) : M Env A := fun w =>
  Fatal reason (log (Ev_shutdown reason) w).

Definition out_of_fuel {A : Type} : M Env A := fun _ => OutOfFuel.

(** *** Accesses to the statics *)

Definition load_timer_repeat_until : M Env Z := fun w =>
  Done (timer_repeat_until w) w.

Definition store_timer_repeat_until (v : Z) : M Env unit := fun w =>
  Done tt (log (Ev_store_timer_repeat_until v)
             (mkState v (last_timer w) (env w) (trace w))).

Definition load_last_timer : M Env Z := fun w => Done (last_timer w) w.

Definition store_last_timer (v : Z) : M Env unit := fun w =>
  Done tt (log (Ev_store_last_timer v)
             (mkState (timer_repeat_until w) v (env w) (trace w))).

(** *** Clock arithmetic *)

(** [return us * (CONFIG_CLOCK_FREQ / 1000000);] *)
Definition timer_from_us (us : Z) : Z :=
  u32 (us * (CONFIG_CLOCK_FREQ ÷ 1000000)).

(** [return (int32_t)(time1 - time2) < 0;] *)
Definition timer_is_before (time1 time2 : Z) : bool :=
  s32 (u32 (time1 - time2)) <? 0.

(** [void timer_periodic(void) { }] *)
Definition timer_periodic : M Env unit := ret tt.

Definition TIMER_IDLE_REPEAT_TICKS : Z := timer_from_us 500.
Definition TIMER_REPEAT_TICKS : Z := timer_from_us 100.
Definition TIMER_MIN_TRY_TICKS : Z := timer_from_us 1.
Definition TIMER_DEFER_REPEAT_TICKS : Z := timer_from_us 5.

(** *** The starvation guard *)

Definition force_defer (next : Z) : M Env Z :=
  now <- timer_read_time ;;
  (if timer_is_before (u32 (next + timer_from_us 1000)) now
   then shutdown "Rescheduled timer in the past"
   else ret tt) ;;
  store_timer_repeat_until (u32 (now + TIMER_REPEAT_TICKS)) ;;
  ret (u32 (now + TIMER_DEFER_REPEAT_TICKS)).

(** *** The dispatch loop *)

(** [while (unlikely(diff > 0)) diff = next - timer_read_time();] *)
Fixpoint spin_wait (fuel : nat) (next diff : Z) : M Env Z :=
  if diff >? 0 then
    match fuel with
    | O => out_of_fuel
    | S fuel' =>
        t <- timer_read_time ;;
        spin_wait fuel' next (s32 (u32 (next - t)))
    end
  else ret diff.

(** The body of [for (;;)], with [tru] the copy of [timer_repeat_until]
    taken at entry. *)
Fixpoint dispatch_loop (fuel : nat) (tru : Z) : M Env Z :=
  match fuel with
  | O => out_of_fuel
  | S fuel' =>
      next <- sched_timer_dispatch ;;
      now <- timer_read_time ;;
      let diff := s32 (u32 (next - now)) in
      if diff >? s32 TIMER_MIN_TRY_TICKS then ret next
      else if timer_is_before tru now then force_defer next
      else
        irq_enable ;;
        spin_wait fuel' next diff ;;
        irq_disable ;;
        dispatch_loop fuel' tru
  end.

Definition timer_dispatch_many (fuel : nat) : M Env Z :=
  tru <- load_timer_repeat_until ;;
  dispatch_loop fuel tru.

(** *** The idle task *)

Definition timer_task : M Env unit :=
  lst <- load_last_timer ;;
  irq_disable ;;
  next <- timer_get_next ;;
  cur <- timer_read_time ;;
  if negb (lst =? next) then
    store_timer_repeat_until (u32 (cur + TIMER_IDLE_REPEAT_TICKS)) ;;
    irq_enable ;;
    store_last_timer next ;;
    ret tt
  else
    irq_wait ;;
    post_sleep <- timer_read_time ;;
    store_timer_repeat_until (u32 (post_sleep + TIMER_IDLE_REPEAT_TICKS)) ;;
    irq_enable ;;
    stats_note_sleep (u32 (post_sleep - cur)).

(** *** The shutdown hook *)

Definition timer_irq_shutdown : M Env unit :=
  t <- timer_read_time ;;
  store_timer_repeat_until (u32 (t + TIMER_IDLE_REPEAT_TICKS)).


(** *** The shape of a dispatch pass *)

(** How a pass of [timer_dispatch_many] ends. *)
Inductive PassEnd : Type :=
| ToHardware (next : Z)
| Deferred (now : Z)
| Halted.

(** The clock readings of one busy-wait for the deadline [next], entered with
    the signed distance [diff]: it reads while the distance is positive. *)
Inductive spin_reads (next : Z) : Z -> list Event -> Prop :=
| spin_done (diff : Z) :
    diff <= 0 -> spin_reads next diff []
| spin_more (diff t : Z) (rest : list Event) :
    diff > 0 ->
    spin_reads next (s32 (u32 (next - t))) rest ->
    spin_reads next diff (Ev_timer_read_time t :: rest).

(** The events of a pass whose copy of [timer_repeat_until] is [tru]: rounds
    of dispatch, clock reading and busy-wait with interrupts enabled, and then
    one round that ends the pass. *)
Inductive pass_trace (tru : Z) : list Event -> PassEnd -> Prop :=
| pass_return (next now : Z) :
    s32 (u32 (next - now)) > s32 TIMER_MIN_TRY_TICKS ->
    pass_trace tru
      [Ev_sched_timer_dispatch next; Ev_timer_read_time now]
      (ToHardware next)
| pass_defer (next now now' : Z) :
    s32 (u32 (next - now)) <= s32 TIMER_MIN_TRY_TICKS ->
    timer_is_before tru now = true ->
    timer_is_before (u32 (next + timer_from_us 1000)) now' = false ->
    pass_trace tru
      [Ev_sched_timer_dispatch next; Ev_timer_read_time now;
       Ev_timer_read_time now';
       Ev_store_timer_repeat_until (u32 (now' + TIMER_REPEAT_TICKS))]
      (Deferred now')
| pass_fatal (next now now' : Z) :
    s32 (u32 (next - now)) <= s32 TIMER_MIN_TRY_TICKS ->
    timer_is_before tru now = true ->
    timer_is_before (u32 (next + timer_from_us 1000)) now' = true ->
    pass_trace tru
      [Ev_sched_timer_dispatch next; Ev_timer_read_time now;
       Ev_timer_read_time now'; Ev_shutdown "Rescheduled timer in the past"]
      Halted
| pass_spin (next now : Z) (reads rest : list Event) (e : PassEnd) :
    s32 (u32 (next - now)) <= s32 TIMER_MIN_TRY_TICKS ->
    timer_is_before tru now = false ->
    spin_reads next (s32 (u32 (next - now))) reads ->
    pass_trace tru rest e ->
    pass_trace tru
      (Ev_sched_timer_dispatch next :: Ev_timer_read_time now ::
       Ev_irq_enable :: reads ++ Ev_irq_disable :: rest)
      e.

(** How the outcome of a pass goes with the way its events end; [tru0] and
    [lst0] are the values of the statics at entry. *)
Definition pass_outcome (tru0 lst0 : Z) (e : PassEnd) (o : Outcome Env Z)
  : Prop :=
  match e, o with
  | ToHardware next, Done v w' =>
      v = next
      /\ timer_repeat_until w' = tru0 /\ last_timer w' = lst0
  | Deferred now, Done v w' =>
      v = u32 (now + TIMER_DEFER_REPEAT_TICKS)
      /\ timer_repeat_until w' = u32 (now + TIMER_REPEAT_TICKS)
      /\ last_timer w' = lst0
  | Halted, Fatal r w' =>
      r = "Rescheduled timer in the past"%string
      /\ timer_repeat_until w' = tru0 /\ last_timer w' = lst0
  | _, _ => False
  end.

(** ** Facts about 32-bit arithmetic *)

Lemma u32_range (x : Z) : 0 <= u32 x < 2 ^ 32.
Proof. unfold u32, modulus. apply Z.mod_pos_bound. lia. Qed.

Lemma u32_small (x : Z) : 0 <= x < 2 ^ 32 -> u32 x = x.
Proof. intros H. unfold u32, modulus. apply Z.mod_small. exact H. Qed.

Lemma u32_idem (x : Z) : u32 (u32 x) = u32 x.
Proof. apply u32_small, u32_range. Qed.

Lemma u32_add_l (x y : Z) : u32 (u32 x + y) = u32 (x + y).
Proof. unfold u32. apply Zplus_mod_idemp_l. Qed.

Lemma u32_add_r (x y : Z) : u32 (x + u32 y) = u32 (x + y).
Proof. unfold u32. apply Zplus_mod_idemp_r. Qed.

Lemma u32_sub_l (x y : Z) : u32 (u32 x - y) = u32 (x - y).
Proof. unfold u32. apply Zminus_mod_idemp_l. Qed.

Lemma u32_sub_r (x y : Z) : u32 (x - u32 y) = u32 (x - y).
Proof. unfold u32. apply Zminus_mod_idemp_r. Qed.

Lemma u32_mul_l (x y : Z) : u32 (u32 x * y) = u32 (x * y).
Proof. unfold u32. apply Zmult_mod_idemp_l. Qed.

Lemma u32_mul_r (x y : Z) : u32 (x * u32 y) = u32 (x * y).
Proof. unfold u32. apply Zmult_mod_idemp_r. Qed.

Lemma s32_u32 (x : Z) : s32 (u32 x) = s32 x.
Proof. unfold s32. rewrite u32_idem. reflexivity. Qed.

Lemma s32_range (x : Z) : - 2 ^ 31 <= s32 x < 2 ^ 31.
Proof.
  unfold s32, half_modulus, modulus. pose proof (u32_range x) as H.
  destruct (Z.ltb_spec (u32 x) (2 ^ 31)); lia.
Qed.

(** [s32] picks the representative of a residue class that lies in the
    range of [int32_t]. *)
Lemma s32_shift (y k : Z) :
  - 2 ^ 31 <= y < 2 ^ 31 -> s32 (y + k * 2 ^ 32) = y.
Proof.
  intros Hy. unfold s32, u32, half_modulus, modulus.
  rewrite Z.mod_add by lia.
  destruct (Z.ltb_spec (y mod 2 ^ 32) (2 ^ 31)) as [Hlt | Hge].
  - destruct (Z_lt_le_dec y 0) as [Hneg | Hpos].
    + exfalso. assert (y mod 2 ^ 32 = y + 2 ^ 32) as E.
      { symmetry. apply Z.mod_unique with (q := -1); lia. }
      lia.
    + apply Z.mod_small. lia.
  - destruct (Z_lt_le_dec y 0) as [Hneg | Hpos].
    + assert (y mod 2 ^ 32 = y + 2 ^ 32) as E.
      { symmetry. apply Z.mod_unique with (q := -1); lia. }
      lia.
    + exfalso. rewrite Z.mod_small in Hge; lia.
Qed.

Lemma s32_small (y : Z) : - 2 ^ 31 <= y < 2 ^ 31 -> s32 y = y.
Proof.
  intros Hy. replace y with (y + 0 * 2 ^ 32) at 1 by lia.
  apply s32_shift. exact Hy.
Qed.

(** The difference of two wrapped tick counts, read as an [int32_t], is the
    difference of the true counts when that fits. *)
Lemma s32_diff_true (t1 t2 : Z) :
  - 2 ^ 31 <= t1 - t2 < 2 ^ 31 -> s32 (u32 (u32 t1 - u32 t2)) = t1 - t2.
Proof.
  intros H. rewrite s32_u32, <- s32_u32, u32_sub_l, u32_sub_r, s32_u32.
  apply s32_small. exact H.
Qed.

(** The sign of the [int32_t] reading is bit 31 of the word. *)
Lemma s32_neg_testbit (x : Z) : (s32 x <? 0) = Z.testbit (u32 x) 31.
Proof.
  pose proof (u32_range x) as R.
  unfold s32, half_modulus, modulus.
  destruct (Z.ltb_spec (u32 x) (2 ^ 31)) as [Hlt | Hge].
  - destruct (Z.ltb_spec (u32 x) 0); [lia | ].
    symmetry. apply Z.testbit_false; [lia | ].
    rewrite Z.div_small by lia. reflexivity.
  - destruct (Z.ltb_spec (u32 x - 2 ^ 32) 0); [ | lia].
    symmetry. apply Z.testbit_true; [lia | ].
    replace (u32 x / 2 ^ 31) with 1; [reflexivity | ].
    apply Z.div_unique with (r := u32 x - 2 ^ 31); lia.
Qed.

(** ** Clock arithmetic *)

Example timer_is_before_wraparound :
  timer_is_before 4294967280 16 = true /\ timer_is_before 16 4294967280 = false.
Proof. split; reflexivity. Qed.

(** At a separation of exactly [2^31] ticks each of the two times is before
    the other one. *)
Example timer_is_before_half_way :
  timer_is_before 0 2147483648 = true /\ timer_is_before 2147483648 0 = true.
Proof. split; reflexivity. Qed.

Lemma timer_is_before_signed (a b : Z) :
  timer_is_before a b = (s32 (a - b) <? 0).
Proof. unfold timer_is_before. rewrite s32_u32. reflexivity. Qed.

Lemma timer_is_before_testbit (a b : Z) :
  timer_is_before a b = Z.testbit (u32 (a - b)) 31.
Proof. rewrite timer_is_before_signed. apply s32_neg_testbit. Qed.

Lemma timer_is_before_refl (a : Z) : timer_is_before a a = false.
Proof.
  rewrite timer_is_before_signed. replace (a - a) with 0 by lia. reflexivity.
Qed.

(** On wrapped readings of true tick counts less than [2^31] apart the
    comparison is the comparison of the true counts. *)
Lemma timer_is_before_true_time (t1 t2 : Z) :
  Z.abs (t1 - t2) < 2 ^ 31 ->
  timer_is_before (u32 t1) (u32 t2) = (t1 <? t2).
Proof.
  intros H. unfold timer_is_before.
  rewrite s32_diff_true by lia.
  destruct (Z.ltb_spec (t1 - t2) 0), (Z.ltb_spec t1 t2); lia || reflexivity.
Qed.

(** C5.  For 32-bit clock values [a] and [b] that are the wrapped readings of
    true tick counts [t1] and [t2] less than [2^31] ticks apart,
    [timer_is_before a b] is the negation of [timer_is_before b a] unless
    [a = b]; no time is before itself; and [timer_is_before a b] is the test
    that [a - b], read as a signed 32-bit integer, is negative. *)
Theorem timer_is_before_antisymmetric (a b t1 t2 : Z) :
  u32 t1 = a -> u32 t2 = b -> Z.abs (t1 - t2) < 2 ^ 31 ->
  (a <> b -> timer_is_before a b = negb (timer_is_before b a))
  /\ (forall c : Z, timer_is_before c c = false)
  /\ timer_is_before a b = (s32 (a - b) <? 0).
Proof.
  intros Ha Hb Hsep. subst a b. split; [ | split].
  - intros Hne.
    rewrite !timer_is_before_true_time by lia.
    assert (t1 <> t2) by (intros E; apply Hne; rewrite E; reflexivity).
    destruct (Z.ltb_spec t1 t2), (Z.ltb_spec t2 t1); simpl; lia || reflexivity.
  - exact timer_is_before_refl.
  - apply timer_is_before_signed.
Qed.

Lemma timer_from_us_range (us : Z) : 0 <= timer_from_us us < 2 ^ 32.
Proof. apply u32_range. Qed.

(** The build-time division truncates: it discards less than a MHz. *)
Lemma clock_freq_truncated :
  0 <= CONFIG_CLOCK_FREQ ->
  0 <= CONFIG_CLOCK_FREQ - 1000000 * (CONFIG_CLOCK_FREQ ÷ 1000000) < 1000000.
Proof.
  intros H. rewrite Z.quot_div_nonneg by lia.
  pose proof (Z.mod_pos_bound CONFIG_CLOCK_FREQ 1000000 ltac:(lia)) as B.
  rewrite Z.mod_eq in B by lia. lia.
Qed.

(** C7.  [timer_from_us] is linear under 32-bit modular arithmetic: on [k]
    times a microsecond count it gives [k] times its value, both products
    taken modulo [2^32], in particular for [k = 2]; its value is the product
    of the count with the truncated quotient of the frequency by 1000000. *)
Theorem timer_from_us_linear (k us : Z) :
  timer_from_us (u32 (k * us)) = u32 (k * timer_from_us us)
  /\ timer_from_us (u32 (2 * us)) = u32 (2 * timer_from_us us)
  /\ timer_from_us us = u32 (us * (CONFIG_CLOCK_FREQ ÷ 1000000)).
Proof.
  assert (forall n : Z,
             timer_from_us (u32 (n * us)) = u32 (n * timer_from_us us)) as L.
  { intros n. unfold timer_from_us.
    rewrite u32_mul_l, u32_mul_r. f_equal. ring. }
  split; [apply L | split; [apply L | reflexivity]].
Qed.

(** Without overflow the products are the exact ones. *)
Lemma timer_from_us_double_exact (us : Z) :
  0 <= us -> 0 <= CONFIG_CLOCK_FREQ ->
  2 * us * (CONFIG_CLOCK_FREQ ÷ 1000000) < 2 ^ 32 ->
  timer_from_us (2 * us) = 2 * timer_from_us us.
Proof.
  intros Hus Hf Hb.
  assert (0 <= CONFIG_CLOCK_FREQ ÷ 1000000) as Hq
      by (apply Z.quot_pos; lia).
  unfold timer_from_us.
  rewrite !u32_small by nia. ring.
Qed.

(** With a frequency of at least 1 MHz that fits 32 bits, up to a millisecond
    of ticks is computed without wrap-around. *)
Lemma timer_from_us_exact (us : Z) :
  1000000 <= CONFIG_CLOCK_FREQ < 2 ^ 32 -> 0 <= us <= 1000 ->
  timer_from_us us = us * (CONFIG_CLOCK_FREQ ÷ 1000000)
  /\ 1 <= CONFIG_CLOCK_FREQ ÷ 1000000 <= 4294.
Proof.
  intros Hf Hus.
  assert (1 <= CONFIG_CLOCK_FREQ ÷ 1000000 <= 4294) as Hq.
  { rewrite Z.quot_div_nonneg by lia. split.
    - apply Z.div_le_lower_bound; lia.
    - apply Z.lt_succ_r, Z.div_lt_upper_bound; lia. }
  split; [ | exact Hq].
  unfold timer_from_us. apply u32_small. nia.
Qed.

(** ** Traces *)

Lemma count_app (p : Event -> bool) (t1 t2 : list Event) :
  count p (t1 ++ t2) = (count p t1 + count p t2)%nat.
Proof. unfold count. rewrite filter_app, length_app. reflexivity. Qed.

Lemma quiet_no_shutdown (t : list Event) :
  forallb is_quiet t = true -> count is_shutdown t = 0%nat.
Proof.
  induction t as [ | e t IH]; [reflexivity | ].
  cbn [forallb]. intros H. apply andb_prop in H. destruct H as [He Ht].
  unfold count in *. cbn [filter].
  unfold is_quiet in He. apply andb_prop in He. destruct He as [He _].
  destruct (is_shutdown e); [discriminate | ]. apply IH, Ht.
Qed.

Lemma quiet_no_store (t : list Event) :
  forallb is_quiet t = true -> count is_store_timer_repeat_until t = 0%nat.
Proof.
  induction t as [ | e t IH]; [reflexivity | ].
  cbn [forallb]. intros H. apply andb_prop in H. destruct H as [He Ht].
  unfold count in *. cbn [filter].
  unfold is_quiet in He. apply andb_prop in He. destruct He as [_ He].
  destruct (is_store_timer_repeat_until e); [discriminate | ]. apply IH, Ht.
Qed.

Lemma last_read_app (t1 t2 : list Event) :
  last_read (t1 ++ t2) =
  match last_read t2 with Some v => Some v | None => last_read t1 end.
Proof.
  induction t1 as [ | e t1 IH]; cbn [app last_read].
  - destruct (last_read t2); reflexivity.
  - rewrite IH. destruct (last_read t2); reflexivity.
Qed.

(** ** The calls of the collaborators always return *)

Lemma timer_read_time_spec (w : State Env) :
  exists v e,
    timer_read_time w =
    Done (u32 v) (log (Ev_timer_read_time (u32 v)) (with_env e w)).
Proof.
  unfold timer_read_time. destruct (board_timer_read_time (env w)) as [v e].
  exists v, e. reflexivity.
Qed.

Lemma sched_timer_dispatch_spec (w : State Env) :
  exists v e,
    sched_timer_dispatch w =
    Done (u32 v) (log (Ev_sched_timer_dispatch (u32 v)) (with_env e w)).
Proof.
  unfold sched_timer_dispatch.
  destruct (board_sched_timer_dispatch (env w)) as [v e].
  exists v, e. reflexivity.
Qed.

Lemma timer_get_next_spec (w : State Env) :
  exists v e,
    timer_get_next w =
    Done (u32 v) (log (Ev_timer_get_next (u32 v)) (with_env e w)).
Proof.
  unfold timer_get_next. destruct (board_timer_get_next (env w)) as [v e].
  exists v, e. reflexivity.
Qed.

Lemma timer_read_time_inv (w w1 : State Env) (v : Z) :
  timer_read_time w = Done v w1 ->
  w1 = log (Ev_timer_read_time v) (with_env (env w1) w).
Proof.
  destruct (timer_read_time_spec w) as (v0 & e & E). rewrite E.
  intros H. inversion H. reflexivity.
Qed.

Lemma timer_read_time_range (w w1 : State Env) (v : Z) :
  timer_read_time w = Done v w1 -> 0 <= v < 2 ^ 32.
Proof.
  destruct (timer_read_time_spec w) as (v0 & e & E). rewrite E.
  intros H. inversion H. apply u32_range.
Qed.

Lemma sched_timer_dispatch_inv (w w1 : State Env) (v : Z) :
  sched_timer_dispatch w = Done v w1 ->
  w1 = log (Ev_sched_timer_dispatch v) (with_env (env w1) w).
Proof.
  destruct (sched_timer_dispatch_spec w) as (v0 & e & E). rewrite E.
  intros H. inversion H. reflexivity.
Qed.

Lemma timer_get_next_inv (w w1 : State Env) (v : Z) :
  timer_get_next w = Done v w1 ->
  w1 = log (Ev_timer_get_next v) (with_env (env w1) w).
Proof.
  destruct (timer_get_next_spec w) as (v0 & e & E). rewrite E.
  intros H. inversion H. reflexivity.
Qed.

Lemma irq_disable_inv (w w1 : State Env) :
  irq_disable w = Done tt w1 ->
  w1 = log Ev_irq_disable (with_env (env w1) w).
Proof. unfold irq_disable. intros H. inversion H. reflexivity. Qed.

Lemma bind_Done {A B : Type} (m : M Env A) (k : A -> M Env B)
      (w w1 : State Env) (a : A) :
  m w = Done a w1 -> bind m k w = k a w1.
Proof. intros H. unfold bind. rewrite H. reflexivity. Qed.

(** ** The starvation guard *)

Lemma timer_is_before_diff (a b d : Z) :
  u32 (a - b) = u32 d -> - 2 ^ 31 <= d < 2 ^ 31 ->
  timer_is_before a b = (d <? 0).
Proof.
  intros E Hd. unfold timer_is_before.
  rewrite E, s32_u32, s32_small by exact Hd. reflexivity.
Qed.

Lemma force_defer_fatal (next now : Z) (w w1 : State Env) :
  timer_read_time w = Done now w1 ->
  timer_is_before (u32 (next + timer_from_us 1000)) now = true ->
  force_defer next w =
  Fatal "Rescheduled timer in the past"
        (log (Ev_shutdown "Rescheduled timer in the past") w1).
Proof.
  intros Hread Hpast. unfold force_defer.
  rewrite (bind_Done _ _ _ _ _ Hread).
  rewrite Hpast. reflexivity.
Qed.

Lemma force_defer_return (next now : Z) (w w1 : State Env) :
  timer_read_time w = Done now w1 ->
  timer_is_before (u32 (next + timer_from_us 1000)) now = false ->
  force_defer next w =
  Done (u32 (now + TIMER_DEFER_REPEAT_TICKS))
       (log (Ev_store_timer_repeat_until (u32 (now + TIMER_REPEAT_TICKS)))
            (mkState (u32 (now + TIMER_REPEAT_TICKS))
                     (last_timer w1) (env w1) (trace w1))).
Proof.
  intros Hread Hpast. unfold force_defer.
  rewrite (bind_Done _ _ _ _ _ Hread).
  rewrite Hpast. reflexivity.
Qed.

(** C8.  When the fatal check of [force_defer] fires, [shutdown] is called
    and nothing is stored to [timer_repeat_until]: the events of the call are
    the clock reading and the shutdown, and the static keeps its value.  When
    the check does not fire, [force_defer] returns, and this is the only
    path with a store to [timer_repeat_until]. *)
Theorem force_defer_fatal_before_store (next now : Z) (w w1 : State Env) :
  timer_read_time w = Done now w1 ->
  (timer_is_before (u32 (next + timer_from_us 1000)) now = true ->
   exists w',
     force_defer next w = Fatal "Rescheduled timer in the past" w'
     /\ trace w' =
        trace w ++ [Ev_timer_read_time now;
                    Ev_shutdown "Rescheduled timer in the past"]
     /\ count is_store_timer_repeat_until (trace w') =
        count is_store_timer_repeat_until (trace w)
     /\ timer_repeat_until w' = timer_repeat_until w)
  /\ (timer_is_before (u32 (next + timer_from_us 1000)) now = false ->
      exists v w',
        force_defer next w = Done v w'
        /\ trace w' =
           trace w ++ [Ev_timer_read_time now;
                       Ev_store_timer_repeat_until
                         (u32 (now + TIMER_REPEAT_TICKS))]
        /\ count is_shutdown (trace w') = count is_shutdown (trace w)
        /\ timer_repeat_until w' = u32 (now + TIMER_REPEAT_TICKS)).
Proof.
  intros Hread. pose proof (timer_read_time_inv _ _ _ Hread) as Hw1.
  split; intros Hpast.
  - eexists. split; [apply (force_defer_fatal _ _ _ _ Hread Hpast) | ].
    rewrite Hw1. cbn [log with_env trace timer_repeat_until].
    rewrite <- !app_assoc. cbn [app]. repeat split.
    rewrite count_app. cbn. lia.
  - eexists. eexists.
    split; [apply (force_defer_return _ _ _ _ Hread Hpast) | ].
    rewrite Hw1. cbn [log with_env trace timer_repeat_until].
    rewrite <- !app_assoc. cbn [app]. repeat split.
    rewrite count_app. cbn. lia.
Qed.

(** A normal return of [force_defer] writes the window and returns the
    deadline computed from one clock reading. *)
Lemma force_defer_Done_inv (next v : Z) (w w' : State Env) :
  force_defer next w = Done v w' ->
  exists now,
    v = u32 (now + TIMER_DEFER_REPEAT_TICKS)
    /\ timer_repeat_until w' = u32 (now + TIMER_REPEAT_TICKS)
    /\ timer_is_before (u32 (next + timer_from_us 1000)) now = false
    /\ trace w' =
       trace w ++ [Ev_timer_read_time now;
                   Ev_store_timer_repeat_until (u32 (now + TIMER_REPEAT_TICKS))]
    /\ last_timer w' = last_timer w.
Proof.
  intros H. destruct (timer_read_time_spec w) as (v0 & e & Hread).
  destruct (timer_is_before (u32 (next + timer_from_us 1000)) (u32 v0))
    eqn:Hpast.
  - rewrite (force_defer_fatal _ _ _ _ Hread Hpast) in H. discriminate.
  - rewrite (force_defer_return _ _ _ _ Hread Hpast) in H.
    inversion H; subst; clear H. exists (u32 v0).
    cbn [log with_env trace timer_repeat_until last_timer].
    rewrite <- !app_assoc. repeat split. exact Hpast.
Qed.

(** C9.  With a clock of at least 1 MHz (and a frequency that fits 32 bits),
    whenever [force_defer] returns, it has read the clock once, at [now], it
    has stored [now + TIMER_REPEAT_TICKS] to [timer_repeat_until], and the
    deadline it returns is [now + TIMER_DEFER_REPEAT_TICKS]; that deadline is
    before the [timer_repeat_until] just written, since 5 microseconds of
    ticks are fewer than 100; so at the returned deadline the repeat window
    has not expired. *)
Theorem force_defer_deadline_in_window (next v : Z) (w w' : State Env) :
  1000000 <= CONFIG_CLOCK_FREQ < 2 ^ 32 ->
  force_defer next w = Done v w' ->
  exists now,
    v = u32 (now + TIMER_DEFER_REPEAT_TICKS)
    /\ timer_repeat_until w' = u32 (now + TIMER_REPEAT_TICKS)
    /\ trace w' =
       trace w ++ [Ev_timer_read_time now;
                   Ev_store_timer_repeat_until (u32 (now + TIMER_REPEAT_TICKS))]
    /\ timer_is_before v (timer_repeat_until w') = true
    /\ timer_is_before (timer_repeat_until w') v = false
    /\ timer_from_us 5 < timer_from_us 100.
Proof.
  intros Hf H.
  destruct (force_defer_Done_inv _ _ _ _ H) as (now & Hv & Htru & _ & Ht & _).
  exists now. split; [exact Hv | ]. split; [exact Htru | ].
  split; [exact Ht | ].
  rewrite Hv, Htru. unfold TIMER_DEFER_REPEAT_TICKS, TIMER_REPEAT_TICKS.
  destruct (timer_from_us_exact 5 Hf ltac:(lia)) as [E5 Hq].
  destruct (timer_from_us_exact 100 Hf ltac:(lia)) as [E100 _].
  rewrite E5, E100.
  set (k := CONFIG_CLOCK_FREQ ÷ 1000000) in *.
  split; [ | split].
  - rewrite (timer_is_before_diff _ _ (- (95 * k))).
    + destruct (Z.ltb_spec (- (95 * k)) 0); [reflexivity | lia].
    + rewrite u32_sub_l, u32_sub_r. f_equal. ring.
    + lia.
  - rewrite (timer_is_before_diff _ _ (95 * k)).
    + destruct (Z.ltb_spec (95 * k) 0); [lia | reflexivity].
    + rewrite u32_sub_l, u32_sub_r. f_equal. ring.
    + lia.
  - lia.
Qed.

(** ** The dispatch loop, one iteration *)

Lemma timer_dispatch_many_eq (fuel : nat) (w : State Env) :
  timer_dispatch_many fuel w = dispatch_loop fuel (timer_repeat_until w) w.
Proof. reflexivity. Qed.

(** The first two calls of an iteration and the three-way choice after
    them. *)
Lemma dispatch_loop_step (fuel : nat) (tru next now : Z)
      (w w1 w2 : State Env) :
  sched_timer_dispatch w = Done next w1 ->
  timer_read_time w1 = Done now w2 ->
  dispatch_loop (S fuel) tru w =
  if s32 (u32 (next - now)) >? s32 TIMER_MIN_TRY_TICKS then Done next w2
  else if timer_is_before tru now then force_defer next w2
  else (irq_enable ;;
        spin_wait fuel next (s32 (u32 (next - now))) ;;
        irq_disable ;;
        dispatch_loop fuel tru) w2.
Proof.
  intros Hd Hr. cbn [dispatch_loop].
  rewrite (bind_Done _ _ _ _ _ Hd), (bind_Done _ _ _ _ _ Hr).
  destruct (s32 (u32 (next - now)) >? s32 TIMER_MIN_TRY_TICKS);
    [reflexivity | ].
  destruct (timer_is_before tru now); reflexivity.
Qed.

(** C3.  When the first call of the queue's dispatch operation returns a
    deadline [next] whose signed difference to the clock reading that follows
    exceeds [TIMER_MIN_TRY_TICKS], [timer_dispatch_many] returns [next], and
    it has called the dispatch operation exactly once. *)
Theorem timer_dispatch_many_future_deadline (fuel : nat) (next now : Z)
        (w w1 w2 : State Env) :
  sched_timer_dispatch w = Done next w1 ->
  timer_read_time w1 = Done now w2 ->
  s32 (u32 (next - now)) > s32 TIMER_MIN_TRY_TICKS ->
  timer_dispatch_many (S fuel) w = Done next w2
  /\ trace w2 =
     trace w ++ [Ev_sched_timer_dispatch next; Ev_timer_read_time now]
  /\ count is_sched_timer_dispatch (trace w2) =
     S (count is_sched_timer_dispatch (trace w)).
Proof.
  intros Hd Hr Hdiff.
  assert (trace w2 =
          trace w ++ [Ev_sched_timer_dispatch next; Ev_timer_read_time now])
    as Ht.
  { rewrite (timer_read_time_inv _ _ _ Hr), (sched_timer_dispatch_inv _ _ _ Hd).
    cbn [log with_env trace]. rewrite <- app_assoc. reflexivity. }
  split; [ | split].
  - rewrite timer_dispatch_many_eq, (dispatch_loop_step _ _ _ _ _ _ _ Hd Hr).
    destruct (Z.gtb_spec (s32 (u32 (next - now))) (s32 TIMER_MIN_TRY_TICKS));
      [reflexivity | lia].
  - exact Ht.
  - rewrite Ht, count_app. cbn. lia.
Qed.

(** C1.  In an iteration of the loop of [timer_dispatch_many] that reaches the
    starvation exit (the deadline [next] is not far enough ahead and the
    repeat window [tru] has expired), if [next] plus a millisecond of ticks is
    before the time read in [force_defer], then [shutdown] is called with the
    reason "Rescheduled timer in the past", exactly once, and no value is
    returned, whatever the fuel.  The state [w] at the start of the iteration
    is arbitrary; for the first iteration [tru] is [timer_repeat_until w]. *)
Theorem timer_dispatch_many_past_deadline (fuel : nat) (tru next now now' : Z)
        (w w1 w2 w3 : State Env) :
  sched_timer_dispatch w = Done next w1 ->
  timer_read_time w1 = Done now w2 ->
  s32 (u32 (next - now)) <= s32 TIMER_MIN_TRY_TICKS ->
  timer_is_before tru now = true ->
  timer_read_time w2 = Done now' w3 ->
  timer_is_before (u32 (next + timer_from_us 1000)) now' = true ->
  let w' := log (Ev_shutdown "Rescheduled timer in the past") w3 in
  dispatch_loop (S fuel) tru w = Fatal "Rescheduled timer in the past" w'
  /\ (tru = timer_repeat_until w ->
      timer_dispatch_many (S fuel) w =
      Fatal "Rescheduled timer in the past" w')
  /\ trace w' =
     trace w ++ [Ev_sched_timer_dispatch next; Ev_timer_read_time now;
                 Ev_timer_read_time now';
                 Ev_shutdown "Rescheduled timer in the past"]
  /\ count is_shutdown (trace w') = S (count is_shutdown (trace w))
  /\ (forall (n : nat) (v : Z) (w'' : State Env),
         dispatch_loop n tru w <> Done v w'').
Proof.
  intros Hd Hr Hdiff Htru Hr' Hpast w'.
  assert (forall n : nat,
             dispatch_loop (S n) tru w =
             Fatal "Rescheduled timer in the past" w') as Hrun.
  { intros n. rewrite (dispatch_loop_step _ _ _ _ _ _ _ Hd Hr).
    destruct (Z.gtb_spec (s32 (u32 (next - now))) (s32 TIMER_MIN_TRY_TICKS));
      [lia | ].
    rewrite Htru. apply (force_defer_fatal _ _ _ _ Hr' Hpast). }
  assert (trace w' =
          trace w ++ [Ev_sched_timer_dispatch next; Ev_timer_read_time now;
                      Ev_timer_read_time now';
                      Ev_shutdown "Rescheduled timer in the past"]) as Ht.
  { unfold w'.
    rewrite (timer_read_time_inv _ _ _ Hr'), (timer_read_time_inv _ _ _ Hr),
      (sched_timer_dispatch_inv _ _ _ Hd).
    cbn [log with_env trace]. rewrite <- !app_assoc. reflexivity. }
  split; [apply Hrun | ].
  split; [intros E; rewrite timer_dispatch_many_eq, <- E; apply Hrun | ].
  split; [exact Ht | ].
  split; [rewrite Ht, count_app; cbn; lia | ].
  intros [ | n] v w'' H.
  - discriminate H.
  - rewrite Hrun in H. discriminate H.
Qed.

(** C2.  With a clock of at least 1 MHz (and a frequency that fits 32 bits):
    when the queue's dispatch operation reports a deadline at or before the
    current time, [timer_repeat_until] is before the current time at entry,
    and the deadline is within the millisecond of tolerance at the time [now']
    read in [force_defer], then [timer_dispatch_many] takes the forced-defer
    path, sets [timer_repeat_until] to [now' + TIMER_REPEAT_TICKS] and returns
    [now' + TIMER_DEFER_REPEAT_TICKS], which is after [now'] and before
    [now' + TIMER_DEFER_REPEAT_TICKS + 1], by [timer_is_before] and, when the
    counter does not wrap in between, as integers. *)
Theorem timer_dispatch_many_forced_defer (fuel : nat) (next now now' : Z)
        (w w1 w2 w3 : State Env) :
  1000000 <= CONFIG_CLOCK_FREQ < 2 ^ 32 ->
  sched_timer_dispatch w = Done next w1 ->
  timer_read_time w1 = Done now w2 ->
  s32 (u32 (next - now)) <= 0 ->
  timer_is_before (timer_repeat_until w) now = true ->
  timer_read_time w2 = Done now' w3 ->
  timer_is_before (u32 (next + timer_from_us 1000)) now' = false ->
  exists w',
    timer_dispatch_many (S fuel) w =
    Done (u32 (now' + TIMER_DEFER_REPEAT_TICKS)) w'
    /\ timer_dispatch_many (S fuel) w = force_defer next w2
    /\ timer_repeat_until w' = u32 (now' + TIMER_REPEAT_TICKS)
    /\ trace w' =
       trace w ++ [Ev_sched_timer_dispatch next; Ev_timer_read_time now;
                   Ev_timer_read_time now';
                   Ev_store_timer_repeat_until
                     (u32 (now' + TIMER_REPEAT_TICKS))]
    /\ timer_is_before now' (u32 (now' + TIMER_DEFER_REPEAT_TICKS)) = true
    /\ timer_is_before (u32 (now' + TIMER_DEFER_REPEAT_TICKS))
                       (u32 (now' + TIMER_DEFER_REPEAT_TICKS + 1)) = true
    /\ (now' + TIMER_DEFER_REPEAT_TICKS < 2 ^ 32 ->
        now' < u32 (now' + TIMER_DEFER_REPEAT_TICKS)
             < now' + TIMER_DEFER_REPEAT_TICKS + 1).
Proof.
  intros Hf Hd Hr Hdiff Htru Hr' Hpast.
  pose proof (timer_read_time_range _ _ _ Hr') as Hnow'.
  destruct (timer_from_us_exact 1 Hf ltac:(lia)) as [E1 Hq].
  destruct (timer_from_us_exact 5 Hf ltac:(lia)) as [E5 _].
  assert (timer_dispatch_many (S fuel) w = force_defer next w2) as Hpath.
  { rewrite timer_dispatch_many_eq, (dispatch_loop_step _ _ _ _ _ _ _ Hd Hr).
    unfold TIMER_MIN_TRY_TICKS.
    rewrite E1, (s32_small (1 * (CONFIG_CLOCK_FREQ ÷ 1000000))) by lia.
    destruct (Z.gtb_spec (s32 (u32 (next - now)))
                         (1 * (CONFIG_CLOCK_FREQ ÷ 1000000))); [lia | ].
    rewrite Htru. reflexivity. }
  eexists. split; [ | split; [exact Hpath | ]].
  - rewrite Hpath. apply (force_defer_return _ _ _ _ Hr' Hpast).
  - cbn [log trace timer_repeat_until].
    split; [reflexivity | ]. split.
    + rewrite (timer_read_time_inv _ _ _ Hr'), (timer_read_time_inv _ _ _ Hr),
        (sched_timer_dispatch_inv _ _ _ Hd).
      cbn [log with_env trace]. rewrite <- !app_assoc. reflexivity.
    + unfold TIMER_DEFER_REPEAT_TICKS. rewrite E5.
      set (k := CONFIG_CLOCK_FREQ ÷ 1000000) in *. split; [ | split].
      * rewrite (timer_is_before_diff _ _ (- (5 * k))).
        -- destruct (Z.ltb_spec (- (5 * k)) 0); [reflexivity | lia].
        -- rewrite u32_sub_r. f_equal. ring.
        -- lia.
      * rewrite (timer_is_before_diff _ _ (- 1)).
        -- reflexivity.
        -- rewrite u32_sub_l, u32_sub_r. f_equal. ring.
        -- lia.
      * intros Hnowrap. rewrite u32_small by lia. lia.
Qed.

(** ** The dispatch loop, every iteration *)

(** The busy-wait only reads the clock; it ends with [diff <= 0]. *)
Lemma spin_wait_spec (fuel : nat) (next : Z) :
  forall (diff : Z) (w : State Env),
    match spin_wait fuel next diff w with
    | Done d w' =>
        d <= 0
        /\ timer_repeat_until w' = timer_repeat_until w
        /\ last_timer w' = last_timer w
        /\ exists t, trace w' = trace w ++ t /\ forallb is_quiet t = true
    | Fatal _ _ => False
    | OutOfFuel => True
    end.
Proof.
  induction fuel as [ | fuel IH]; intros diff w; cbn [spin_wait];
    destruct (Z.gtb_spec diff 0) as [Hpos | Hle].
  - exact I.
  - cbn [ret]. repeat split; [lia | ]. exists []. rewrite app_nil_r.
    split; reflexivity.
  - destruct (timer_read_time_spec w) as (v & e & Hr).
    rewrite (bind_Done _ _ _ _ _ Hr).
    specialize (IH (s32 (u32 (next - u32 v)))
                   (log (Ev_timer_read_time (u32 v)) (with_env e w))).
    destruct (spin_wait fuel next (s32 (u32 (next - u32 v)))
                        (log (Ev_timer_read_time (u32 v)) (with_env e w)))
      as [d w' | r w' | ]; [ | exact IH | exact I].
    destruct IH as (Hd & Htru & Hlst & t & Ht & Hq).
    repeat split; [exact Hd | exact Htru | exact Hlst | ].
    exists (Ev_timer_read_time (u32 v) :: t). split.
    + rewrite Ht. cbn [log with_env trace]. rewrite <- app_assoc. reflexivity.
    + cbn [forallb]. rewrite Hq. reflexivity.
  - cbn [ret]. repeat split; [lia | ]. exists []. rewrite app_nil_r.
    split; reflexivity.
Qed.

(** A busy-wait entered with [diff <= 0] returns at once. *)
Lemma spin_wait_ready (fuel : nat) (next diff : Z) (w : State Env) :
  diff <= 0 -> spin_wait fuel next diff w = Done diff w.
Proof.
  intros H. destruct fuel; cbn [spin_wait];
    destruct (Z.gtb_spec diff 0); lia || reflexivity.
Qed.

(** What can be said of every run of the loop, by the way it ends.  [t] is
    what happened before the calls that decide the exit. *)
Lemma dispatch_loop_exits (fuel : nat) (tru : Z) :
  forall w : State Env,
    match dispatch_loop fuel tru w with
    | Done v w' =>
        last_timer w' = last_timer w
        /\ exists t now,
          forallb is_quiet t = true
          /\ ((trace w' =
               trace w ++ t ++
                 [Ev_sched_timer_dispatch v; Ev_timer_read_time now]
               /\ s32 (u32 (v - now)) > s32 TIMER_MIN_TRY_TICKS
               /\ timer_repeat_until w' = timer_repeat_until w)
              \/ (trace w' =
                  trace w ++ t ++
                    [Ev_timer_read_time now;
                     Ev_store_timer_repeat_until
                       (u32 (now + TIMER_REPEAT_TICKS))]
                  /\ v = u32 (now + TIMER_DEFER_REPEAT_TICKS)
                  /\ timer_repeat_until w' =
                     u32 (now + TIMER_REPEAT_TICKS)))
    | Fatal r w' =>
        r = "Rescheduled timer in the past"%string
        /\ timer_repeat_until w' = timer_repeat_until w
        /\ last_timer w' = last_timer w
        /\ exists t now,
          forallb is_quiet t = true
          /\ trace w' = trace w ++ t ++ [Ev_timer_read_time now; Ev_shutdown r]
    | OutOfFuel => True
    end.
Proof.
  induction fuel as [ | fuel IH]; intros w; [exact I | ].
  destruct (sched_timer_dispatch_spec w) as (v1 & e1 & Hd).
  set (next := u32 v1) in *.
  set (w1 := log (Ev_sched_timer_dispatch next) (with_env e1 w)) in *.
  destruct (timer_read_time_spec w1) as (v2 & e2 & Hr).
  set (now := u32 v2) in *.
  set (w2 := log (Ev_timer_read_time now) (with_env e2 w1)) in *.
  assert (trace w2 =
          trace w ++ [Ev_sched_timer_dispatch next; Ev_timer_read_time now])
    as Ht2.
  { unfold w2, w1. cbn [log with_env trace]. rewrite <- app_assoc.
    reflexivity. }
  rewrite (dispatch_loop_step _ _ _ _ _ _ _ Hd Hr).
  destruct (Z.gtb_spec (s32 (u32 (next - now))) (s32 TIMER_MIN_TRY_TICKS))
    as [Hfar | Hnear].
  - (* return to hardware *)
    split; [reflexivity | ]. exists [], now. split; [reflexivity | ].
    left. repeat split; [exact Ht2 | lia].
  - destruct (timer_is_before tru now) eqn:Htru.
    + (* starvation exit *)
      destruct (timer_read_time_spec w2) as (v3 & e3 & Hr').
      destruct (timer_is_before (u32 (next + timer_from_us 1000)) (u32 v3))
        eqn:Hpast.
      * rewrite (force_defer_fatal _ _ _ _ Hr' Hpast).
        repeat split.
        exists [Ev_sched_timer_dispatch next; Ev_timer_read_time now], (u32 v3).
        split; [reflexivity | ].
        cbn [log with_env trace]. rewrite Ht2, <- !app_assoc. reflexivity.
      * rewrite (force_defer_return _ _ _ _ Hr' Hpast).
        split; [reflexivity | ].
        exists [Ev_sched_timer_dispatch next; Ev_timer_read_time now], (u32 v3).
        split; [reflexivity | ]. right.
        cbn [log with_env trace timer_repeat_until].
        rewrite Ht2, <- !app_assoc. repeat split.
    + (* busy-wait, then the next iteration *)
      unfold bind at 1. unfold irq_enable at 1.
      set (w3 := log Ev_irq_enable (with_env (board_irq_enable (env w2)) w2)).
      unfold bind at 1.
      pose proof (spin_wait_spec fuel next (s32 (u32 (next - now))) w3) as Hs.
      destruct (spin_wait fuel next (s32 (u32 (next - now))) w3)
        as [d w4 | r w4 | ]; [ | contradiction | exact I].
      destruct Hs as (_ & Htru4 & Hlst4 & ts & Hts & Hqs).
      unfold bind at 1. unfold irq_disable at 1.
      set (w5 := log Ev_irq_disable
                     (with_env (board_irq_disable (env w4)) w4)).
      assert (trace w5 =
              trace w ++
                ([Ev_sched_timer_dispatch next; Ev_timer_read_time now;
                  Ev_irq_enable] ++ ts ++ [Ev_irq_disable])) as Ht5.
      { unfold w5. cbn [log with_env trace]. rewrite Hts. unfold w3.
        cbn [log with_env trace]. rewrite Ht2, <- !app_assoc. reflexivity. }
      assert (forallb is_quiet
                ([Ev_sched_timer_dispatch next; Ev_timer_read_time now;
                  Ev_irq_enable] ++ ts ++ [Ev_irq_disable]) = true) as Hq5.
      { rewrite !forallb_app, Hqs. reflexivity. }
      specialize (IH w5).
      destruct (dispatch_loop fuel tru w5) as [v w' | r w' | ]; [ | | exact I].
      * destruct IH as (Hlst & t & now0 & Hq & Hexit).
        split; [rewrite Hlst; exact Hlst4 | ].
        exists (([Ev_sched_timer_dispatch next; Ev_timer_read_time now;
                  Ev_irq_enable] ++ ts ++ [Ev_irq_disable]) ++ t), now0.
        split; [rewrite forallb_app, Hq5, Hq; reflexivity | ].
        destruct Hexit as [(Ht & Hfar & Hsame) | (Ht & Hv & Hnew)].
        -- left. repeat split; [ | exact Hfar | rewrite Hsame; exact Htru4].
           rewrite Ht, Ht5, <- !app_assoc. reflexivity.
        -- right. repeat split; [ | exact Hv | exact Hnew].
           rewrite Ht, Ht5, <- !app_assoc. reflexivity.
      * destruct IH as (Hr0 & Hsame & Hlst & t & now0 & Hq & Ht).
        repeat split;
          [exact Hr0 | rewrite Hsame; exact Htru4 | rewrite Hlst; exact Hlst4 | ].
        exists (([Ev_sched_timer_dispatch next; Ev_timer_read_time now;
                  Ev_irq_enable] ++ ts ++ [Ev_irq_disable]) ++ t), now0.
        split; [rewrite forallb_app, Hq5, Hq; reflexivity | ].
        rewrite Ht, Ht5, <- !app_assoc. reflexivity.
Qed.

(** X11.  A shutdown raised by [timer_dispatch_many] has the reason
    "Rescheduled timer in the past"; it is the last thing the pass does and
    the only shutdown of the pass, and [timer_repeat_until] has not been
    stored to. *)
Lemma timer_dispatch_many_Fatal_inv (fuel : nat) (r : string)
      (w w' : State Env) :
  timer_dispatch_many fuel w = Fatal r w' ->
  r = "Rescheduled timer in the past"%string
  /\ timer_repeat_until w' = timer_repeat_until w
  /\ count is_shutdown (trace w') = S (count is_shutdown (trace w))
  /\ count is_store_timer_repeat_until (trace w') =
     count is_store_timer_repeat_until (trace w)
  /\ exists t, trace w' = trace w ++ t ++ [Ev_shutdown r].
Proof.
  intros H. rewrite timer_dispatch_many_eq in H.
  pose proof (dispatch_loop_exits fuel (timer_repeat_until w) w) as E.
  rewrite H in E. destruct E as (Hr & Htru & _ & t & now & Hq & Ht).
  split; [exact Hr | ]. split; [exact Htru | ].
  pose proof (quiet_no_shutdown _ Hq). pose proof (quiet_no_store _ Hq).
  split; [ | split].
  - rewrite Ht, !count_app. cbn. lia.
  - rewrite Ht, !count_app. cbn. lia.
  - exists (t ++ [Ev_timer_read_time now]). rewrite Ht, <- !app_assoc.
    reflexivity.
Qed.

(** C4.  With a clock of at least 1 MHz (and a frequency that fits 32 bits),
    a value returned by [timer_dispatch_many] is never before the most recent
    clock reading [now] of the run.  Either the run ends with the dispatch
    call that returned the value and the reading [now], the signed difference
    of the value and [now] exceeds [TIMER_MIN_TRY_TICKS], and that threshold
    is positive; or it ends with the reading [now] of [force_defer] and the
    store of the repeat window, and the value is
    [now + TIMER_DEFER_REPEAT_TICKS]. *)
Theorem timer_dispatch_many_not_before_now (fuel : nat) (v : Z)
        (w w' : State Env) :
  1000000 <= CONFIG_CLOCK_FREQ < 2 ^ 32 ->
  timer_dispatch_many fuel w = Done v w' ->
  exists t now,
    last_read (trace w') = Some now
    /\ timer_is_before v now = false
    /\ ((trace w' =
         trace w ++ t ++ [Ev_sched_timer_dispatch v; Ev_timer_read_time now]
         /\ s32 (u32 (v - now)) > s32 TIMER_MIN_TRY_TICKS
         /\ s32 TIMER_MIN_TRY_TICKS = TIMER_MIN_TRY_TICKS
         /\ TIMER_MIN_TRY_TICKS > 0)
        \/ (trace w' =
            trace w ++ t ++
              [Ev_timer_read_time now;
               Ev_store_timer_repeat_until (u32 (now + TIMER_REPEAT_TICKS))]
            /\ v = u32 (now + TIMER_DEFER_REPEAT_TICKS))).
Proof.
  intros Hf H. rewrite timer_dispatch_many_eq in H.
  pose proof (dispatch_loop_exits fuel (timer_repeat_until w) w) as E.
  rewrite H in E. destruct E as (_ & t & now & _ & Hexit).
  destruct (timer_from_us_exact 1 Hf ltac:(lia)) as [E1 Hq].
  destruct (timer_from_us_exact 5 Hf ltac:(lia)) as [E5 _].
  exists t, now.
  destruct Hexit as [(Ht & Hfar & _) | (Ht & Hv & _)].
  - assert (s32 TIMER_MIN_TRY_TICKS = TIMER_MIN_TRY_TICKS) as Es.
    { unfold TIMER_MIN_TRY_TICKS. rewrite E1. apply s32_small. lia. }
    assert (TIMER_MIN_TRY_TICKS > 0) as Hpos.
    { unfold TIMER_MIN_TRY_TICKS. rewrite E1. lia. }
    split; [ | split].
    + rewrite Ht, !last_read_app. reflexivity.
    + unfold timer_is_before. rewrite Es in Hfar.
      destruct (Z.ltb_spec (s32 (u32 (v - now))) 0); [lia | reflexivity].
    + left. repeat split; [exact Ht | exact Hfar | exact Es | exact Hpos].
  - split; [ | split].
    + rewrite Ht, !last_read_app. reflexivity.
    + rewrite Hv. unfold TIMER_DEFER_REPEAT_TICKS. rewrite E5.
      set (k := CONFIG_CLOCK_FREQ ÷ 1000000) in *.
      rewrite (timer_is_before_diff _ _ (5 * k)).
      * destruct (Z.ltb_spec (5 * k) 0); [lia | reflexivity].
      * rewrite u32_sub_l. f_equal. ring.
      * lia.
    + right. split; [exact Ht | exact Hv].
Qed.

(** ** The idle task *)

Lemma timer_task_changed (next cur : Z) (w w0 w1 w2 : State Env) :
  irq_disable w = Done tt w0 ->
  timer_get_next w0 = Done next w1 ->
  timer_read_time w1 = Done cur w2 ->
  next <> last_timer w ->
  exists w',
    timer_task w = Done tt w'
    /\ trace w' =
       trace w ++ [Ev_irq_disable; Ev_timer_get_next next;
                   Ev_timer_read_time cur;
                   Ev_store_timer_repeat_until
                     (u32 (cur + TIMER_IDLE_REPEAT_TICKS));
                   Ev_irq_enable; Ev_store_last_timer next]
    /\ timer_repeat_until w' = u32 (cur + TIMER_IDLE_REPEAT_TICKS)
    /\ last_timer w' = next.
Proof.
  intros Hd Hg Hr Hne. unfold timer_task.
  unfold bind at 1. unfold load_last_timer at 1.
  rewrite (bind_Done _ _ _ _ _ Hd), (bind_Done _ _ _ _ _ Hg),
    (bind_Done _ _ _ _ _ Hr).
  destruct (Z.eqb_spec (last_timer w) next) as [E | _];
    [exfalso; apply Hne; symmetry; exact E | ].
  cbn [negb]. eexists. split; [reflexivity | ].
  cbn [log with_env trace timer_repeat_until last_timer].
  rewrite (timer_read_time_inv _ _ _ Hr), (timer_get_next_inv _ _ _ Hg),
    (irq_disable_inv _ _ Hd).
  cbn [log with_env trace]. rewrite <- !app_assoc. repeat split.
Qed.

Lemma timer_task_unchanged (next cur : Z) (w w0 w1 w2 : State Env) :
  irq_disable w = Done tt w0 ->
  timer_get_next w0 = Done next w1 ->
  timer_read_time w1 = Done cur w2 ->
  next = last_timer w ->
  exists post w',
    timer_task w = Done tt w'
    /\ trace w' =
       trace w ++ [Ev_irq_disable; Ev_timer_get_next next;
                   Ev_timer_read_time cur; Ev_irq_wait;
                   Ev_timer_read_time post;
                   Ev_store_timer_repeat_until
                     (u32 (post + TIMER_IDLE_REPEAT_TICKS));
                   Ev_irq_enable; Ev_stats_note_sleep (u32 (post - cur))]
    /\ timer_repeat_until w' = u32 (post + TIMER_IDLE_REPEAT_TICKS)
    /\ last_timer w' = last_timer w.
Proof.
  intros Hd Hg Hr He. unfold timer_task.
  unfold bind at 1. unfold load_last_timer at 1.
  rewrite (bind_Done _ _ _ _ _ Hd), (bind_Done _ _ _ _ _ Hg),
    (bind_Done _ _ _ _ _ Hr).
  destruct (Z.eqb_spec (last_timer w) next) as [_ | Hne];
    [ | exfalso; apply Hne; symmetry; exact He].
  cbn [negb]. unfold bind at 1. unfold irq_wait at 1.
  destruct (timer_read_time_spec
              (log Ev_irq_wait (with_env (board_irq_wait (env w2)) w2)))
    as (v & e & Hp).
  rewrite (bind_Done _ _ _ _ _ Hp).
  exists (u32 v). eexists. split; [reflexivity | ].
  cbn [log with_env trace timer_repeat_until last_timer].
  rewrite (timer_read_time_inv _ _ _ Hr), (timer_get_next_inv _ _ _ Hg),
    (irq_disable_inv _ _ Hd).
  cbn [log with_env trace timer_repeat_until last_timer].
  rewrite <- !app_assoc. repeat split.
Qed.

(** C6.  In an invocation of [timer_task] in which [timer_get_next] returns
    [next] and the clock reading that follows is [cur]: if [next] equals the
    cached [last_timer], the task calls [irq_wait] exactly once, then reads
    the time [post] and sets [timer_repeat_until] to
    [post + TIMER_IDLE_REPEAT_TICKS]; if [next] differs, the task does not
    call [irq_wait], sets [timer_repeat_until] to
    [cur + TIMER_IDLE_REPEAT_TICKS], stores [next] to [last_timer] and
    returns. *)
Theorem timer_task_sleeps_when_unchanged (next cur : Z)
        (w w0 w1 w2 : State Env) :
  irq_disable w = Done tt w0 ->
  timer_get_next w0 = Done next w1 ->
  timer_read_time w1 = Done cur w2 ->
  (next = last_timer w ->
   exists post w',
     timer_task w = Done tt w'
     /\ count is_irq_wait (trace w') = S (count is_irq_wait (trace w))
     /\ trace w' =
        trace w ++ [Ev_irq_disable; Ev_timer_get_next next;
                    Ev_timer_read_time cur; Ev_irq_wait;
                    Ev_timer_read_time post;
                    Ev_store_timer_repeat_until
                      (u32 (post + TIMER_IDLE_REPEAT_TICKS));
                    Ev_irq_enable; Ev_stats_note_sleep (u32 (post - cur))]
     /\ timer_repeat_until w' = u32 (post + TIMER_IDLE_REPEAT_TICKS))
  /\ (next <> last_timer w ->
      exists w',
        timer_task w = Done tt w'
        /\ count is_irq_wait (trace w') = count is_irq_wait (trace w)
        /\ trace w' =
           trace w ++ [Ev_irq_disable; Ev_timer_get_next next;
                       Ev_timer_read_time cur;
                       Ev_store_timer_repeat_until
                         (u32 (cur + TIMER_IDLE_REPEAT_TICKS));
                       Ev_irq_enable; Ev_store_last_timer next]
        /\ timer_repeat_until w' = u32 (cur + TIMER_IDLE_REPEAT_TICKS)
        /\ last_timer w' = next).
Proof.
  intros Hd Hg Hr. split; intros Hcmp.
  - destruct (timer_task_unchanged _ _ _ _ _ _ Hd Hg Hr Hcmp)
      as (post & w' & Hrun & Ht & Htru & _).
    exists post, w'. split; [exact Hrun | ]. split; [ | split; assumption].
    rewrite Ht, count_app. cbn. lia.
  - destruct (timer_task_changed _ _ _ _ _ _ Hd Hg Hr Hcmp)
      as (w' & Hrun & Ht & Htru & Hlst).
    exists w'. split; [exact Hrun | ].
    split; [ | repeat split; assumption].
    rewrite Ht, count_app. cbn. lia.
Qed.

(** C10.  After an invocation of [timer_task], [last_timer] is the value that
    [timer_get_next] returned in that invocation: when that value differs
    from the cached one the task stores it to [last_timer], once; when it is
    equal the task does not store to [last_timer], which already holds it. *)
Theorem timer_task_caches_next (next : Z) (w w0 w1 : State Env) :
  irq_disable w = Done tt w0 ->
  timer_get_next w0 = Done next w1 ->
  exists w',
    timer_task w = Done tt w'
    /\ last_timer w' = next
    /\ (next <> last_timer w ->
        count is_store_last_timer (trace w') =
        S (count is_store_last_timer (trace w))
        /\ In (Ev_store_last_timer next) (trace w'))
    /\ (next = last_timer w ->
        count is_store_last_timer (trace w') =
        count is_store_last_timer (trace w)
        /\ last_timer w' = last_timer w).
Proof.
  intros Hd Hg. destruct (timer_read_time_spec w1) as (v & e & Hr).
  destruct (Z.eq_dec next (last_timer w)) as [Heq | Hne].
  - destruct (timer_task_unchanged _ _ _ _ _ _ Hd Hg Hr Heq)
      as (post & w' & Hrun & Ht & _ & Hlst).
    exists w'. split; [exact Hrun | ].
    split; [rewrite Hlst; symmetry; exact Heq | ].
    split; [intros Hne; contradiction | ]. intros _.
    split; [ | exact Hlst]. rewrite Ht, count_app. cbn. lia.
  - destruct (timer_task_changed _ _ _ _ _ _ Hd Hg Hr Hne)
      as (w' & Hrun & Ht & _ & Hlst).
    exists w'. split; [exact Hrun | ]. split; [exact Hlst | ].
    split; [ | intros Heq; contradiction]. intros _. split.
    + rewrite Ht, count_app. cbn. lia.
    + rewrite Ht. apply in_or_app. right. cbn. tauto.
Qed.

(** ** The shutdown hook *)

(** Two calls in a row leave the window computed from the second reading. *)
Lemma timer_irq_shutdown_twice (t1 t2 : Z) (w w1 w2 w3 : State Env) :
  timer_read_time w = Done t1 w1 ->
  timer_irq_shutdown w = Done tt w2 ->
  timer_read_time w2 = Done t2 w3 ->
  exists w',
    (timer_irq_shutdown ;; timer_irq_shutdown) w = Done tt w'
    /\ timer_repeat_until w' = u32 (t2 + TIMER_IDLE_REPEAT_TICKS).
Proof.
  intros H1 Hs H2. rewrite (bind_Done _ _ _ _ _ Hs).
  unfold timer_irq_shutdown. rewrite (bind_Done _ _ _ _ _ H2).
  eexists. split; reflexivity.
Qed.

(** ** More on the clock arithmetic *)

(** The [int32_t] reading of a word is congruent to it. *)
Lemma u32_s32 (x : Z) : u32 (s32 x) = u32 x.
Proof.
  unfold s32, half_modulus. destruct (u32 x <? 2 ^ 31).
  - apply u32_idem.
  - unfold modulus. replace (u32 x - 2 ^ 32) with (u32 x + (-1) * 2 ^ 32)
      by lia.
    unfold u32 at 1. unfold modulus. rewrite Z.mod_add by lia.
    apply u32_idem.
Qed.

Lemma u32_opp (x : Z) :
  u32 (- u32 x) = if u32 x =? 0 then 0 else 2 ^ 32 - u32 x.
Proof.
  pose proof (u32_range x) as R.
  destruct (Z.eqb_spec (u32 x) 0) as [E | N].
  - rewrite E. reflexivity.
  - unfold u32 at 1. unfold modulus. symmetry.
    apply Z.mod_unique with (q := -1); lia.
Qed.

Lemma timer_is_before_word (a b : Z) :
  timer_is_before a b = (2 ^ 31 <=? u32 (a - b)).
Proof.
  rewrite timer_is_before_signed. unfold s32, half_modulus, modulus.
  pose proof (u32_range (a - b)) as R.
  destruct (Z.ltb_spec (u32 (a - b)) (2 ^ 31)),
    (Z.leb_spec (2 ^ 31) (u32 (a - b))); lia.
Qed.

Lemma u32_swap (a b : Z) : u32 (b - a) = u32 (- u32 (a - b)).
Proof.
  replace (- u32 (a - b)) with (0 - u32 (a - b)) by lia.
  rewrite u32_sub_r. f_equal. lia.
Qed.

(** X1.  For any two clock values, each is before the other exactly when
    they are [2^31] ticks apart, and neither is before the other exactly when
    they are the same 32-bit value. *)
Theorem timer_is_before_both_or_neither (a b : Z) :
  (timer_is_before a b = true /\ timer_is_before b a = true
   <-> u32 (a - b) = 2 ^ 31)
  /\ (timer_is_before a b = false /\ timer_is_before b a = false
      <-> u32 (a - b) = 0).
Proof.
  rewrite !timer_is_before_word, (u32_swap a b), u32_opp.
  pose proof (u32_range (a - b)) as R.
  destruct (Z.eqb_spec (u32 (a - b)) 0) as [E | N];
    destruct (Z.leb_spec (2 ^ 31) (u32 (a - b)));
    try destruct (Z.leb_spec (2 ^ 31) 0);
    try destruct (Z.leb_spec (2 ^ 31) (2 ^ 32 - u32 (a - b)));
    repeat split; intros; try lia; try discriminate;
    repeat match goal with H : _ /\ _ |- _ => destruct H end;
    try discriminate; try lia.
Qed.

(** X2.  The comparison does not change when the same number of ticks is
    added to both times, whether or not the additions wrap. *)
Theorem timer_is_before_shift (a b d : Z) :
  timer_is_before (u32 (a + d)) (u32 (b + d)) = timer_is_before a b.
Proof.
  unfold timer_is_before. rewrite u32_sub_l, u32_sub_r.
  replace (a + d - (b + d)) with (a - b) by lia. reflexivity.
Qed.

(** X3.  The comparison is transitive as long as the two separations add up
    to at most [2^31] ticks. *)
Theorem timer_is_before_trans (a b c : Z) :
  timer_is_before a b = true ->
  timer_is_before b c = true ->
  - 2 ^ 31 <= s32 (a - b) + s32 (b - c) ->
  timer_is_before a c = true.
Proof.
  rewrite (timer_is_before_signed a b), (timer_is_before_signed b c).
  intros Hab Hbc Hsum.
  apply Z.ltb_lt in Hab. apply Z.ltb_lt in Hbc.
  rewrite (timer_is_before_diff a c (s32 (a - b) + s32 (b - c))).
  - apply Z.ltb_lt. lia.
  - rewrite <- u32_add_l, <- u32_add_r, !u32_s32, u32_add_l, u32_add_r.
    f_equal. lia.
  - lia.
Qed.

(** X4.  [timer_from_us] is additive under 32-bit modular arithmetic. *)
Theorem timer_from_us_add (us1 us2 : Z) :
  timer_from_us (u32 (us1 + us2)) =
  u32 (timer_from_us us1 + timer_from_us us2).
Proof.
  unfold timer_from_us. rewrite u32_mul_l, u32_add_l, u32_add_r.
  f_equal. ring.
Qed.

(** X5.  With a clock of at least 1 MHz whose frequency fits 32 bits, the
    tick constants are ordered as their microsecond counts: the minimum-try
    threshold is positive and below the defer pause, which is below the
    repeat window, which is below the idle window, which is below the
    millisecond of tolerance, which is a positive [int32_t]. *)
Theorem timer_tick_constants_ordered :
  1000000 <= CONFIG_CLOCK_FREQ < 2 ^ 32 ->
  0 < TIMER_MIN_TRY_TICKS < TIMER_DEFER_REPEAT_TICKS
  /\ TIMER_DEFER_REPEAT_TICKS < TIMER_REPEAT_TICKS
  /\ TIMER_REPEAT_TICKS < TIMER_IDLE_REPEAT_TICKS
  /\ TIMER_IDLE_REPEAT_TICKS < timer_from_us 1000 < 2 ^ 31.
Proof.
  intros Hf.
  unfold TIMER_MIN_TRY_TICKS, TIMER_DEFER_REPEAT_TICKS, TIMER_REPEAT_TICKS,
    TIMER_IDLE_REPEAT_TICKS.
  destruct (timer_from_us_exact 1 Hf ltac:(lia)) as [E1 Hq].
  destruct (timer_from_us_exact 5 Hf ltac:(lia)) as [E5 _].
  destruct (timer_from_us_exact 100 Hf ltac:(lia)) as [E100 _].
  destruct (timer_from_us_exact 500 Hf ltac:(lia)) as [E500 _].
  destruct (timer_from_us_exact 1000 Hf ltac:(lia)) as [E1000 _].
  rewrite E1, E5, E100, E500, E1000. lia.
Qed.

(** X6.  With a clock of at least 1 MHz whose frequency fits 32 bits, what
    [force_defer] does is decided by the signed distance [d] from the time it
    reads to the deadline: it shuts down when the deadline is more than a
    millisecond of ticks back; it returns when the deadline is at most a
    millisecond back or ahead by less than [2^31] ticks minus a millisecond;
    and it shuts down again for deadlines further ahead, where adding the
    millisecond overflows the signed range. *)
Theorem force_defer_tolerance (next now : Z) (w w1 : State Env) :
  1000000 <= CONFIG_CLOCK_FREQ < 2 ^ 32 ->
  timer_read_time w = Done now w1 ->
  let d := s32 (u32 (next - now)) in
  let ms := timer_from_us 1000 in
  (d < - ms ->
   force_defer next w =
   Fatal "Rescheduled timer in the past"
         (log (Ev_shutdown "Rescheduled timer in the past") w1))
  /\ (- ms <= d < 2 ^ 31 - ms ->
      exists w', force_defer next w =
                 Done (u32 (now + TIMER_DEFER_REPEAT_TICKS)) w')
  /\ (2 ^ 31 - ms <= d ->
      force_defer next w =
      Fatal "Rescheduled timer in the past"
            (log (Ev_shutdown "Rescheduled timer in the past") w1)).
Proof.
  intros Hf Hread d ms.
  destruct (timer_from_us_exact 1000 Hf ltac:(lia)) as [E Hq].
  pose proof (s32_range (u32 (next - now))) as Rd. fold d in Rd.
  assert (u32 (u32 (next + ms) - now) = u32 (d + ms)) as Hcong.
  { unfold d. rewrite u32_sub_l, <- u32_add_l, u32_s32, u32_idem, u32_add_l.
    f_equal. lia. }
  assert (0 < ms < 2 ^ 31) as Hms by (unfold ms; rewrite E; lia).
  split; [ | split]; intros Hd.
  - apply (force_defer_fatal _ _ _ _ Hread). fold ms.
    rewrite (timer_is_before_diff _ _ (d + ms) Hcong) by lia.
    apply Z.ltb_lt. lia.
  - eexists. apply (force_defer_return _ _ _ _ Hread). fold ms.
    rewrite (timer_is_before_diff _ _ (d + ms) Hcong) by lia.
    apply Z.ltb_ge. lia.
  - apply (force_defer_fatal _ _ _ _ Hread). fold ms.
    rewrite (timer_is_before_diff _ _ (d + ms - 2 ^ 32)) by
        (try lia; rewrite Hcong; unfold u32, modulus;
         replace (d + ms - 2 ^ 32) with (d + ms + (-1) * 2 ^ 32) by lia;
         rewrite Z.mod_add by lia; reflexivity).
    apply Z.ltb_lt. lia.
Qed.

(** ** The shape of a dispatch pass *)

Lemma spin_wait_reads (fuel : nat) (next : Z) :
  forall (diff : Z) (w : State Env),
    match spin_wait fuel next diff w with
    | Done d w' =>
        timer_repeat_until w' = timer_repeat_until w
        /\ last_timer w' = last_timer w
        /\ exists reads,
          trace w' = trace w ++ reads /\ spin_reads next diff reads
    | Fatal _ _ => False
    | OutOfFuel => True
    end.
Proof.
  induction fuel as [ | fuel IH]; intros diff w; cbn [spin_wait];
    destruct (Z.gtb_spec diff 0) as [Hpos | Hle].
  - exact I.
  - cbn [ret]. repeat split. exists []. rewrite app_nil_r.
    split; [reflexivity | apply spin_done; lia].
  - destruct (timer_read_time_spec w) as (v & e & Hr).
    rewrite (bind_Done _ _ _ _ _ Hr).
    specialize (IH (s32 (u32 (next - u32 v)))
                   (log (Ev_timer_read_time (u32 v)) (with_env e w))).
    destruct (spin_wait fuel next (s32 (u32 (next - u32 v)))
                        (log (Ev_timer_read_time (u32 v)) (with_env e w)))
      as [d w' | r w' | ]; [ | exact IH | exact I].
    destruct IH as (Htru & Hlst & reads & Ht & Hreads).
    repeat split; [exact Htru | exact Hlst | ].
    exists (Ev_timer_read_time (u32 v) :: reads). split.
    + rewrite Ht. cbn [log with_env trace]. rewrite <- app_assoc. reflexivity.
    + apply spin_more; [lia | exact Hreads].
  - cbn [ret]. repeat split. exists []. rewrite app_nil_r.
    split; [reflexivity | apply spin_done; lia].
Qed.

Lemma dispatch_loop_pass (fuel : nat) (tru : Z) :
  forall w w' : State Env,
    final_state (dispatch_loop fuel tru w) = Some w' ->
    exists t e,
      trace w' = trace w ++ t
      /\ pass_trace tru t e
      /\ pass_outcome (timer_repeat_until w) (last_timer w) e
                      (dispatch_loop fuel tru w).
Proof.
  induction fuel as [ | fuel IH]; intros w w' Hfin; [discriminate Hfin | ].
  destruct (sched_timer_dispatch_spec w) as (v1 & e1 & Hd).
  set (next := u32 v1) in *.
  set (w1 := log (Ev_sched_timer_dispatch next) (with_env e1 w)) in *.
  destruct (timer_read_time_spec w1) as (v2 & e2 & Hr).
  set (now := u32 v2) in *.
  set (w2 := log (Ev_timer_read_time now) (with_env e2 w1)) in *.
  assert (trace w2 =
          trace w ++ [Ev_sched_timer_dispatch next; Ev_timer_read_time now])
    as Ht2.
  { unfold w2, w1. cbn [log with_env trace]. rewrite <- app_assoc.
    reflexivity. }
  rewrite (dispatch_loop_step _ _ _ _ _ _ _ Hd Hr) in *.
  destruct (Z.gtb_spec (s32 (u32 (next - now))) (s32 TIMER_MIN_TRY_TICKS))
    as [Hfar | Hnear].
  - cbn [final_state] in Hfin. inversion Hfin; subst w'.
    exists [Ev_sched_timer_dispatch next; Ev_timer_read_time now],
      (ToHardware next).
    split; [exact Ht2 | ]. split; [apply pass_return; lia | ].
    cbn [pass_outcome]. repeat split.
  - destruct (timer_is_before tru now) eqn:Htru.
    + destruct (timer_read_time_spec w2) as (v3 & e3 & Hr').
      destruct (timer_is_before (u32 (next + timer_from_us 1000)) (u32 v3))
        eqn:Hpast.
      * rewrite (force_defer_fatal _ _ _ _ Hr' Hpast) in *.
        cbn [final_state] in Hfin. inversion Hfin; subst w'.
        exists [Ev_sched_timer_dispatch next; Ev_timer_read_time now;
                Ev_timer_read_time (u32 v3);
                Ev_shutdown "Rescheduled timer in the past"], Halted.
        split; [ | split].
        -- cbn [log with_env trace]. rewrite Ht2, <- !app_assoc. reflexivity.
        -- apply pass_fatal; assumption.
        -- cbn [pass_outcome]. repeat split.
      * rewrite (force_defer_return _ _ _ _ Hr' Hpast) in *.
        cbn [final_state] in Hfin. inversion Hfin; subst w'.
        exists [Ev_sched_timer_dispatch next; Ev_timer_read_time now;
                Ev_timer_read_time (u32 v3);
                Ev_store_timer_repeat_until
                  (u32 (u32 v3 + TIMER_REPEAT_TICKS))], (Deferred (u32 v3)).
        split; [ | split].
        -- cbn [log with_env trace]. rewrite ?Ht2, <- !app_assoc. reflexivity.
        -- apply pass_defer; assumption.
        -- cbn [pass_outcome]. repeat split.
    + change ((irq_enable ;;
               spin_wait fuel next (s32 (u32 (next - now))) ;;
               irq_disable ;; dispatch_loop fuel tru) w2)
        with (match spin_wait fuel next (s32 (u32 (next - now)))
                      (log Ev_irq_enable
                           (with_env (board_irq_enable (env w2)) w2))
              with
              | Done _ w4 =>
                  dispatch_loop fuel tru
                    (log Ev_irq_disable
                         (with_env (board_irq_disable (env w4)) w4))
              | Fatal r w4 => Fatal r w4
              | OutOfFuel => OutOfFuel
              end) in *.
      set (w3 := log Ev_irq_enable
                     (with_env (board_irq_enable (env w2)) w2)) in *.
      pose proof (spin_wait_reads fuel next (s32 (u32 (next - now))) w3) as Hs.
      destruct (spin_wait fuel next (s32 (u32 (next - now))) w3)
        as [d w4 | r w4 | ]; [ | contradiction | discriminate].
      destruct Hs as (Htru4 & Hlst4 & reads & Hts & Hreads).
      set (w5 := log Ev_irq_disable
                     (with_env (board_irq_disable (env w4)) w4)) in *.
      destruct (IH w5 w' Hfin) as (t & e & Ht & Hpass & Hout).
      exists (Ev_sched_timer_dispatch next :: Ev_timer_read_time now ::
              Ev_irq_enable :: reads ++ Ev_irq_disable :: t), e.
      split; [ | split].
      * rewrite Ht. unfold w5. cbn [log with_env trace]. rewrite Hts.
        unfold w3. cbn [log with_env trace]. rewrite Ht2, <- !app_assoc.
        reflexivity.
      * apply pass_spin; assumption.
      * replace (timer_repeat_until w) with (timer_repeat_until w5)
          by exact Htru4.
        replace (last_timer w) with (last_timer w5) by exact Hlst4.
        exact Hout.
Qed.

Lemma count_cons (p : Event -> bool) (e : Event) (t : list Event) :
  count p (e :: t) = ((if p e then 1 else 0) + count p t)%nat.
Proof. unfold count. cbn [filter]. destruct (p e); reflexivity. Qed.

Lemma spin_reads_count (p : Event -> bool) (next diff : Z)
      (reads : list Event) :
  (forall v : Z, p (Ev_timer_read_time v) = false) ->
  spin_reads next diff reads -> count p reads = 0%nat.
Proof.
  intros Hp H. induction H as [diff Hle | diff t rest Hpos _ IH].
  - reflexivity.
  - rewrite count_cons, Hp, IH. reflexivity.
Qed.

Lemma spin_reads_dispatch_events (next diff : Z) (reads : list Event) :
  spin_reads next diff reads -> forallb is_dispatch_event reads = true.
Proof.
  intros H. induction H as [diff Hle | diff t rest Hpos _ IH].
  - reflexivity.
  - cbn [forallb is_dispatch_event]. exact IH.
Qed.

Lemma spin_reads_irq (next diff : Z) (reads : list Event) :
  spin_reads next diff reads ->
  forall (masked : bool) (rest : list Event),
    irq_discipline masked (reads ++ rest) = irq_discipline masked rest.
Proof.
  intros H. induction H as [diff Hle | diff t rest' Hpos _ IH];
    intros masked rest.
  - reflexivity.
  - cbn [app irq_discipline]. apply IH.
Qed.

Lemma spin_reads_due (next diff : Z) (reads : list Event) :
  spin_reads next diff reads ->
  forall (now : Z) (rest : list Event),
    diff = s32 (u32 (next - now)) ->
    (forall n0 t0 : Z, waits_until_due n0 t0 rest = true) ->
    waits_until_due next now (reads ++ Ev_irq_disable :: rest) = true.
Proof.
  intros H. induction H as [diff Hle | diff t rest' Hpos _ IH];
    intros now rest Hdiff Hrest.
  - cbn [app waits_until_due]. rewrite Hrest, andb_true_r.
    apply Z.leb_le. lia.
  - cbn [app waits_until_due]. apply IH; [reflexivity | exact Hrest].
Qed.

Lemma pass_trace_irq (tru : Z) (t : list Event) (e : PassEnd) :
  pass_trace tru t e -> irq_discipline true t = Some true.
Proof.
  intros H.
  induction H as [next now Hfar | next now now' Hnear Htru Hpast
                  | next now now' Hnear Htru Hpast
                  | next now reads rest e Hnear Htru Hreads _ IH];
    try reflexivity.
  cbn [irq_discipline]. rewrite (spin_reads_irq _ _ _ Hreads).
  cbn [irq_discipline]. exact IH.
Qed.

Lemma pass_trace_due (tru : Z) (t : list Event) (e : PassEnd) :
  pass_trace tru t e ->
  forall n0 t0 : Z, waits_until_due n0 t0 t = true.
Proof.
  intros H.
  induction H as [next now Hfar | next now now' Hnear Htru Hpast
                  | next now now' Hnear Htru Hpast
                  | next now reads rest e Hnear Htru Hreads _ IH];
    intros n0 t0; try reflexivity.
  cbn [waits_until_due].
  apply (spin_reads_due _ _ _ Hreads); [reflexivity | exact IH].
Qed.

Lemma pass_trace_counts (tru : Z) (t : list Event) (e : PassEnd) :
  pass_trace tru t e ->
  count is_sched_timer_dispatch t = S (count is_irq_enable t)
  /\ count is_irq_enable t = count is_irq_disable t
  /\ count is_store_timer_repeat_until t =
     match e with Deferred _ => 1%nat | _ => 0%nat end
  /\ count is_shutdown t = match e with Halted => 1%nat | _ => 0%nat end
  /\ forallb is_dispatch_event t = true.
Proof.
  intros H.
  induction H as [next now Hfar | next now now' Hnear Htru Hpast
                  | next now now' Hnear Htru Hpast
                  | next now reads rest e Hnear Htru Hreads _ IH];
    try (repeat split; reflexivity).
  destruct IH as (Hd & He & Hs & Hh & Hk).
  rewrite !count_cons, !count_app, !count_cons.
  rewrite !(spin_reads_count _ _ _ _ (fun _ => eq_refl) Hreads).
  cbn [is_sched_timer_dispatch is_irq_enable is_irq_disable
       is_store_timer_repeat_until is_shutdown].
  repeat split; try lia.
  cbn [forallb is_dispatch_event]. rewrite forallb_app.
  rewrite (spin_reads_dispatch_events _ _ _ Hreads).
  cbn [forallb is_dispatch_event andb]. exact Hk.
Qed.

(** X7.  The events of every finished pass of [timer_dispatch_many] are
    rounds of dispatch, clock reading and busy-wait with interrupts enabled
    (each taken because the deadline was not far enough ahead and the repeat
    window had not expired), followed by one last round: a far deadline,
    which is returned with [timer_repeat_until] unchanged; or an expired
    window and [force_defer], which either stores the new window and returns
    the deferred deadline or shuts down with [timer_repeat_until] unchanged.
    [last_timer] is never changed. *)
Theorem timer_dispatch_many_pass_shape (fuel : nat) (w w' : State Env) :
  final_state (timer_dispatch_many fuel w) = Some w' ->
  exists t e,
    trace w' = trace w ++ t
    /\ pass_trace (timer_repeat_until w) t e
    /\ pass_outcome (timer_repeat_until w) (last_timer w) e
                    (timer_dispatch_many fuel w).
Proof.
  rewrite timer_dispatch_many_eq. apply dispatch_loop_pass.
Qed.

(** X8.  A pass of [timer_dispatch_many] that is entered with interrupts
    disabled calls the queue, stores to [timer_repeat_until] and shuts down
    only with interrupts disabled, enables interrupts only around its
    busy-waits, and ends with interrupts disabled. *)
Theorem timer_dispatch_many_irq_discipline (fuel : nat) (w w' : State Env) :
  final_state (timer_dispatch_many fuel w) = Some w' ->
  exists t,
    trace w' = trace w ++ t /\ irq_discipline true t = Some true.
Proof.
  rewrite timer_dispatch_many_eq. intros H.
  destruct (dispatch_loop_pass _ _ _ _ H) as (t & e & Ht & Hpass & _).
  exists t. split; [exact Ht | exact (pass_trace_irq _ _ _ Hpass)].
Qed.

(** X9.  In a pass of [timer_dispatch_many] every busy-wait ends, and so the
    queue is called again, only after a clock reading at or past the deadline
    that the queue returned last. *)
Theorem timer_dispatch_many_waits_until_due (fuel : nat)
        (w w' : State Env) :
  final_state (timer_dispatch_many fuel w) = Some w' ->
  exists t,
    trace w' = trace w ++ t
    /\ forall n0 t0 : Z, waits_until_due n0 t0 t = true.
Proof.
  rewrite timer_dispatch_many_eq. intros H.
  destruct (dispatch_loop_pass _ _ _ _ H) as (t & e & Ht & Hpass & _).
  exists t. split; [exact Ht | exact (pass_trace_due _ _ _ Hpass)].
Qed.

(** X10.  A finished pass of [timer_dispatch_many] has called the queue once
    more than it has enabled interrupts, has disabled interrupts as often as
    it has enabled them, has stored to [timer_repeat_until] or shut down at
    most once in all, and has neither slept, nor peeked at the queue, nor
    reported statistics, nor stored to [last_timer]. *)
Theorem timer_dispatch_many_counts (fuel : nat) (w w' : State Env) :
  final_state (timer_dispatch_many fuel w) = Some w' ->
  exists t,
    trace w' = trace w ++ t
    /\ count is_sched_timer_dispatch t = S (count is_irq_enable t)
    /\ count is_irq_enable t = count is_irq_disable t
    /\ (count is_store_timer_repeat_until t + count is_shutdown t <= 1)%nat
    /\ forallb is_dispatch_event t = true.
Proof.
  rewrite timer_dispatch_many_eq. intros H.
  destruct (dispatch_loop_pass _ _ _ _ H) as (t & e & Ht & Hpass & _).
  destruct (pass_trace_counts _ _ _ Hpass) as (Hd & He & Hs & Hh & Hk).
  exists t. repeat split; try assumption.
  rewrite Hs, Hh. destruct e; cbn; lia.
Qed.

(** ** The repeat window *)

(** X12.  The repeat window as seen by a pass: when [timer_repeat_until] was
    set to [c + W] and the deadline is not far enough ahead to return it, a
    first clock reading [c + e] up to the end of the window makes the pass
    busy-wait and call the queue again, and a reading past the end of the
    window makes it call [force_defer]. *)
Theorem timer_dispatch_many_window (fuel : nat) (c W e next now : Z)
        (w w1 w2 : State Env) :
  timer_repeat_until w = u32 (c + W) ->
  sched_timer_dispatch w = Done next w1 ->
  timer_read_time w1 = Done now w2 ->
  now = u32 (c + e) ->
  Z.abs (W - e) < 2 ^ 31 ->
  s32 (u32 (next - now)) <= s32 TIMER_MIN_TRY_TICKS ->
  (e <= W ->
   timer_dispatch_many (S fuel) w =
   (irq_enable ;;
    spin_wait fuel next (s32 (u32 (next - now))) ;;
    irq_disable ;;
    dispatch_loop fuel (timer_repeat_until w)) w2)
  /\ (W < e -> timer_dispatch_many (S fuel) w = force_defer next w2).
Proof.
  intros Htru Hd Hr Hnow Hsep Hnear.
  rewrite timer_dispatch_many_eq, (dispatch_loop_step _ _ _ _ _ _ _ Hd Hr).
  destruct (Z.gtb_spec (s32 (u32 (next - now))) (s32 TIMER_MIN_TRY_TICKS));
    [lia | ].
  assert (timer_is_before (timer_repeat_until w) now = (W <? e)) as Hwin.
  { rewrite Htru, Hnow, timer_is_before_true_time
      by (replace (c + W - (c + e)) with (W - e) by lia; exact Hsep).
    destruct (Z.ltb_spec (c + W) (c + e)), (Z.ltb_spec W e);
      lia || reflexivity. }
  rewrite Hwin. split; intros Hcmp.
  - destruct (Z.ltb_spec W e); [lia | reflexivity].
  - destruct (Z.ltb_spec W e); [reflexivity | lia].
Qed.

(** ** More on the idle task *)

Lemma timer_task_sleep_run (next cur post : Z)
      (w w0 w1 w2 w3 w4 : State Env) :
  irq_disable w = Done tt w0 ->
  timer_get_next w0 = Done next w1 ->
  timer_read_time w1 = Done cur w2 ->
  next = last_timer w ->
  irq_wait w2 = Done tt w3 ->
  timer_read_time w3 = Done post w4 ->
  exists w',
    timer_task w = Done tt w'
    /\ trace w' =
       trace w ++ [Ev_irq_disable; Ev_timer_get_next next;
                   Ev_timer_read_time cur; Ev_irq_wait;
                   Ev_timer_read_time post;
                   Ev_store_timer_repeat_until
                     (u32 (post + TIMER_IDLE_REPEAT_TICKS));
                   Ev_irq_enable; Ev_stats_note_sleep (u32 (post - cur))].
Proof.
  intros Hd Hg Hr He Hw Hp. unfold timer_task.
  unfold bind at 1. unfold load_last_timer at 1.
  rewrite (bind_Done _ _ _ _ _ Hd), (bind_Done _ _ _ _ _ Hg),
    (bind_Done _ _ _ _ _ Hr).
  destruct (Z.eqb_spec (last_timer w) next) as [_ | Hne];
    [ | exfalso; apply Hne; symmetry; exact He].
  cbn [negb].
  rewrite (bind_Done _ _ _ _ _ Hw), (bind_Done _ _ _ _ _ Hp).
  eexists. split; [reflexivity | ].
  cbn [log with_env trace].
  rewrite (timer_read_time_inv _ _ _ Hp).
  unfold irq_wait in Hw. inversion Hw; subst w3.
  cbn [log with_env trace].
  rewrite (timer_read_time_inv _ _ _ Hr), (timer_get_next_inv _ _ _ Hg),
    (irq_disable_inv _ _ Hd).
  cbn [log with_env trace]. rewrite <- !app_assoc. reflexivity.
Qed.

(** X13.  An invocation of [timer_task] that is entered with interrupts
    enabled peeks at the queue, sleeps and stores to [timer_repeat_until]
    only with interrupts disabled, and returns with interrupts enabled; it
    stores to [timer_repeat_until] exactly once, and it neither dispatches
    timers nor shuts down. *)
Theorem timer_task_irq_discipline (w : State Env) :
  exists w' t,
    timer_task w = Done tt w'
    /\ trace w' = trace w ++ t
    /\ irq_discipline false t = Some false
    /\ count is_store_timer_repeat_until t = 1%nat
    /\ count is_sched_timer_dispatch t = 0%nat
    /\ count is_shutdown t = 0%nat.
Proof.
  set (w0 := log Ev_irq_disable (with_env (board_irq_disable (env w)) w)).
  assert (irq_disable w = Done tt w0) as Hd by reflexivity.
  destruct (timer_get_next_spec w0) as (v1 & e1 & Hg).
  destruct (timer_read_time_spec
              (log (Ev_timer_get_next (u32 v1)) (with_env e1 w0)))
    as (v2 & e2 & Hr).
  destruct (Z.eq_dec (u32 v1) (last_timer w)) as [Heq | Hne].
  - destruct (timer_task_unchanged _ _ _ _ _ _ Hd Hg Hr Heq)
      as (post & w' & Hrun & Ht & _).
    exists w'. eexists. split; [exact Hrun | ]. split; [exact Ht | ].
    repeat split.
  - destruct (timer_task_changed _ _ _ _ _ _ Hd Hg Hr Hne)
      as (w' & Hrun & Ht & _).
    exists w'. eexists. split; [exact Hrun | ]. split; [exact Ht | ].
    repeat split.
Qed.

(** X14.  When the queue's next deadline is the same in two invocations of
    [timer_task] in a row, the second invocation sleeps, whatever was cached
    before the first one. *)
Theorem timer_task_second_sighting_sleeps (next : Z)
        (w w0 w1 w' w0' w1' : State Env) :
  irq_disable w = Done tt w0 ->
  timer_get_next w0 = Done next w1 ->
  timer_task w = Done tt w' ->
  irq_disable w' = Done tt w0' ->
  timer_get_next w0' = Done next w1' ->
  exists w'',
    timer_task w' = Done tt w''
    /\ count is_irq_wait (trace w'') = S (count is_irq_wait (trace w'))
    /\ last_timer w'' = next.
Proof.
  intros Hd Hg Hrun Hd' Hg'.
  assert (last_timer w' = next) as Hcache.
  { destruct (timer_read_time_spec w1) as (v & e & Hr).
    destruct (Z.eq_dec next (last_timer w)) as [Heq | Hne].
    - destruct (timer_task_unchanged _ _ _ _ _ _ Hd Hg Hr Heq)
        as (post & w2 & Hrun2 & _ & _ & Hlst).
      rewrite Hrun in Hrun2. inversion Hrun2; subst w2.
      rewrite Hlst. symmetry. exact Heq.
    - destruct (timer_task_changed _ _ _ _ _ _ Hd Hg Hr Hne)
        as (w2 & Hrun2 & _ & _ & Hlst).
      rewrite Hrun in Hrun2. inversion Hrun2; subst w2. exact Hlst. }
  destruct (timer_read_time_spec w1') as (v' & e' & Hr').
  destruct (timer_task_unchanged _ _ _ _ _ _ Hd' Hg' Hr' (eq_sym Hcache))
    as (post & w'' & Hrun' & Ht & _ & Hlst).
  exists w''. split; [exact Hrun' | ]. split.
  - rewrite Ht, count_app. cbn. lia.
  - rewrite Hlst. exact Hcache.
Qed.

(** X15.  When [timer_task] sleeps, the duration it reports to
    [stats_note_sleep] is the number of ticks between the reading before the
    sleep and the reading after it, also when the counter has wrapped in
    between, as long as the sleep took less than [2^32] ticks. *)
Theorem timer_task_sleep_duration (next cur post c e : Z)
        (w w0 w1 w2 w3 w4 : State Env) :
  irq_disable w = Done tt w0 ->
  timer_get_next w0 = Done next w1 ->
  timer_read_time w1 = Done cur w2 ->
  next = last_timer w ->
  irq_wait w2 = Done tt w3 ->
  timer_read_time w3 = Done post w4 ->
  cur = u32 c ->
  post = u32 (c + e) ->
  0 <= e < 2 ^ 32 ->
  exists w' t,
    timer_task w = Done tt w'
    /\ trace w' = trace w ++ t ++ [Ev_stats_note_sleep e].
Proof.
  intros Hd Hg Hr He Hw Hp Hcur Hpost Hrange.
  destruct (timer_task_sleep_run _ _ _ _ _ _ _ _ _ Hd Hg Hr He Hw Hp)
    as (w' & Hrun & Ht).
  exists w'. eexists. split; [exact Hrun | ].
  rewrite Ht. f_equal.
  replace (u32 (post - cur)) with e.
  - change [Ev_irq_disable; Ev_timer_get_next next; Ev_timer_read_time cur;
            Ev_irq_wait; Ev_timer_read_time post;
            Ev_store_timer_repeat_until
              (u32 (post + TIMER_IDLE_REPEAT_TICKS));
            Ev_irq_enable; Ev_stats_note_sleep e]
      with ([Ev_irq_disable; Ev_timer_get_next next; Ev_timer_read_time cur;
             Ev_irq_wait; Ev_timer_read_time post;
             Ev_store_timer_repeat_until
               (u32 (post + TIMER_IDLE_REPEAT_TICKS));
             Ev_irq_enable] ++ [Ev_stats_note_sleep e]).
    reflexivity.
  - rewrite Hcur, Hpost, u32_sub_l, u32_sub_r.
    replace (c + e - c) with e by lia. symmetry. apply u32_small. exact Hrange.
Qed.

(** ** More on the shutdown hook *)

(** X16.  [timer_irq_shutdown] reads the clock once and stores that reading
    plus [TIMER_IDLE_REPEAT_TICKS] to [timer_repeat_until]; called twice in a
    row it leaves the window computed from the second reading alone.  It
    changes neither the interrupt state nor [last_timer]. *)
Theorem timer_irq_shutdown_idempotent (t1 t2 : Z) (w w1 w2 w3 : State Env) :
  timer_read_time w = Done t1 w1 ->
  timer_irq_shutdown w = Done tt w2 ->
  timer_read_time w2 = Done t2 w3 ->
  timer_repeat_until w2 = u32 (t1 + TIMER_IDLE_REPEAT_TICKS)
  /\ exists w',
    (timer_irq_shutdown ;; timer_irq_shutdown) w = Done tt w'
    /\ timer_repeat_until w' = u32 (t2 + TIMER_IDLE_REPEAT_TICKS)
    /\ last_timer w' = last_timer w
    /\ trace w' =
       trace w ++
         [Ev_timer_read_time t1;
          Ev_store_timer_repeat_until (u32 (t1 + TIMER_IDLE_REPEAT_TICKS));
          Ev_timer_read_time t2;
          Ev_store_timer_repeat_until (u32 (t2 + TIMER_IDLE_REPEAT_TICKS))].
Proof.
  intros H1 Hs H2.
  assert (w2 = log (Ev_store_timer_repeat_until
                      (u32 (t1 + TIMER_IDLE_REPEAT_TICKS)))
                   (mkState (u32 (t1 + TIMER_IDLE_REPEAT_TICKS))
                            (last_timer w1) (env w1) (trace w1))) as Hw2.
  { unfold timer_irq_shutdown in Hs. rewrite (bind_Done _ _ _ _ _ H1) in Hs.
    inversion Hs. reflexivity. }
  split; [rewrite Hw2; reflexivity | ].
  rewrite (bind_Done _ _ _ _ _ Hs).
  unfold timer_irq_shutdown. rewrite (bind_Done _ _ _ _ _ H2).
  eexists. split; [reflexivity | ].
  cbn [log with_env trace timer_repeat_until last_timer].
  rewrite (timer_read_time_inv _ _ _ H2).
  cbn [log with_env trace timer_repeat_until last_timer].
  rewrite Hw2. cbn [log with_env trace timer_repeat_until last_timer].
  rewrite (timer_read_time_inv _ _ _ H1).
  cbn [log with_env trace timer_repeat_until last_timer].
  rewrite <- !app_assoc. repeat split.
Qed.

End TimerIrq.

(** ** The clock frequency *)

(** X17.  Only the whole MHz of the clock frequency count: [timer_from_us]
    gives the same ticks for a frequency and for that frequency rounded
    towards zero to a multiple of 1000000. *)
Theorem timer_from_us_whole_MHz (freq us : Z) :
  timer_from_us freq us = timer_from_us (1000000 * (freq ÷ 1000000)) us.
Proof.
  unfold timer_from_us. do 2 f_equal.
  rewrite Z.mul_comm, Z.quot_mul by lia. reflexivity.
Qed.

(** X18.  With a clock below 1 MHz every number of microseconds is zero
    ticks. *)
Theorem timer_from_us_below_MHz (freq us : Z) :
  0 <= freq < 1000000 -> timer_from_us freq us = 0.
Proof.
  intros H. unfold timer_from_us. rewrite Z.quot_small by exact H.
  rewrite Z.mul_0_r. reflexivity.
Qed.

(** ** Concrete runs

    Runs on the scripted board with a 16 MHz clock, where a microsecond is 16
    ticks. *)

Lemma timer_is_before_antisymmetric_witness :
  (4294967280 <> 16 ->
   timer_is_before 4294967280 16 = negb (timer_is_before 16 4294967280))
  /\ (forall c : Z, timer_is_before c c = false)
  /\ timer_is_before 4294967280 16 = (s32 (4294967280 - 16) <? 0).
Proof.
  apply (timer_is_before_antisymmetric 4294967280 16 (-16) 16); reflexivity.
Defined.

(** The queue reports a deadline 10000 ticks ahead. *)
Lemma timer_dispatch_many_future_deadline_witness :
  exists w2 : State Script,
    timer_dispatch_many 16000000 1 (boot 0 0 (mkScript [1000] [11000] [])) =
    Done 11000 w2
    /\ trace w2 = [] ++ [Ev_sched_timer_dispatch 11000; Ev_timer_read_time 1000]
    /\ count is_sched_timer_dispatch (trace w2) = 1%nat.
Proof.
  eexists.
  eapply (timer_dispatch_many_future_deadline 16000000 (board := scripted_board) 0 11000 1000 (boot 0 0 (mkScript [1000] [11000] []))).
  - reflexivity.
  - reflexivity.
  - reflexivity.
Defined.

(** The queue reports a deadline 99000 ticks back, and the repeat window has
    expired. *)
Lemma timer_dispatch_many_past_deadline_witness :
  exists w3 : State Script,
    let w := boot 0 0 (mkScript [100000; 100010] [1000] []) in
    let w' := log (Ev_shutdown "Rescheduled timer in the past") w3 in
    dispatch_loop 16000000 1 0 w = Fatal "Rescheduled timer in the past" w'
    /\ (0 = timer_repeat_until w ->
        timer_dispatch_many 16000000 1 w =
        Fatal "Rescheduled timer in the past" w')
    /\ trace w' =
       trace w ++ [Ev_sched_timer_dispatch 1000; Ev_timer_read_time 100000;
                   Ev_timer_read_time 100010;
                   Ev_shutdown "Rescheduled timer in the past"]
    /\ count is_shutdown (trace w') = S (count is_shutdown (trace w))
    /\ (forall (n : nat) (v : Z) (w'' : State Script),
           dispatch_loop 16000000 n 0 w <> Done v w'').
Proof.
  eexists.
  eapply (timer_dispatch_many_past_deadline 16000000 (board := scripted_board) 0 0 1000 100000 100010
            (boot 0 0 (mkScript [100000; 100010] [1000] []))).
  - reflexivity.
  - reflexivity.
  - vm_compute. discriminate.
  - reflexivity.
  - reflexivity.
  - reflexivity.
Defined.

(** The queue reports a deadline that is due now, and the repeat window has
    expired. *)
Lemma timer_dispatch_many_forced_defer_witness :
  exists w' : State Script,
    let w := boot 0 0 (mkScript [1000; 1010] [1000] []) in
    timer_dispatch_many 16000000 1 w = Done 1090 w'
    /\ timer_repeat_until w' = 2610
    /\ trace w' =
       [Ev_sched_timer_dispatch 1000; Ev_timer_read_time 1000;
        Ev_timer_read_time 1010; Ev_store_timer_repeat_until 2610]
    /\ timer_is_before 1010 1090 = true
    /\ timer_is_before 1090 1091 = true
    /\ 1010 < 1090 < 1091.
Proof.
  destruct (timer_dispatch_many_forced_defer 16000000 (board := scripted_board) 0 1000 1000 1010
              (boot 0 0 (mkScript [1000; 1010] [1000] []))
              (mkState 0 0 (mkScript [1000; 1010] [] [])
                       [Ev_sched_timer_dispatch 1000])
              (mkState 0 0 (mkScript [1010] [] [])
                       [Ev_sched_timer_dispatch 1000; Ev_timer_read_time 1000])
              (mkState 0 0 (mkScript [] [] [])
                       [Ev_sched_timer_dispatch 1000; Ev_timer_read_time 1000;
                        Ev_timer_read_time 1010]))
    as (w' & Hrun & _ & Htru & Ht & Hlo & Hhi & Hint).
  - lia.
  - reflexivity.
  - reflexivity.
  - vm_compute. discriminate.
  - reflexivity.
  - reflexivity.
  - reflexivity.
  - exists w'. repeat split; try assumption; lia.
Defined.

(** A run that waits for a deadline 10 ticks ahead, dispatches it and then
    gets a deadline far ahead. *)
Lemma timer_dispatch_many_not_before_now_witness :
  let w := boot 5000 0 (mkScript [1000; 1005; 1012; 1020] [1010; 90000] []) in
  let w' :=
    mkState 5000 0 (mkScript [] [] [])
            [Ev_sched_timer_dispatch 1010; Ev_timer_read_time 1000;
             Ev_irq_enable; Ev_timer_read_time 1005; Ev_timer_read_time 1012;
             Ev_irq_disable; Ev_sched_timer_dispatch 90000;
             Ev_timer_read_time 1020] in
  timer_dispatch_many 16000000 5 w = Done 90000 w'
  /\ exists (t : list Event) (now : Z),
    last_read (trace w') = Some now
    /\ timer_is_before 90000 now = false
    /\ ((trace w' =
         trace w ++ t ++
           [Ev_sched_timer_dispatch 90000; Ev_timer_read_time now]
         /\ s32 (u32 (90000 - now)) > s32 (TIMER_MIN_TRY_TICKS 16000000)
         /\ s32 (TIMER_MIN_TRY_TICKS 16000000) = TIMER_MIN_TRY_TICKS 16000000
         /\ TIMER_MIN_TRY_TICKS 16000000 > 0)
        \/ (trace w' =
            trace w ++ t ++
              [Ev_timer_read_time now;
               Ev_store_timer_repeat_until
                 (u32 (now + TIMER_REPEAT_TICKS 16000000))]
            /\ 90000 = u32 (now + TIMER_DEFER_REPEAT_TICKS 16000000))).
Proof.
  intros w w'. split; [reflexivity | ].
  apply (timer_dispatch_many_not_before_now 16000000 (board := scripted_board) 5 90000 w w').
  - lia.
  - reflexivity.
Defined.

(** [force_defer] on a deadline 99010 ticks back. *)
Lemma force_defer_fatal_before_store_witness :
  exists w' : State Script,
    let w := boot 7 0 (mkScript [100010] [] []) in
    force_defer 16000000 1000 w = Fatal "Rescheduled timer in the past" w'
    /\ trace w' =
       [Ev_timer_read_time 100010; Ev_shutdown "Rescheduled timer in the past"]
    /\ count is_store_timer_repeat_until (trace w') = 0%nat
    /\ timer_repeat_until w' = 7.
Proof.
  destruct (force_defer_fatal_before_store 16000000 (board := scripted_board) 1000 100010 (boot 7 0 (mkScript [100010] [] []))
              (mkState 7 0 (mkScript [] [] []) [Ev_timer_read_time 100010])
              eq_refl) as [Hfatal _].
  exact (Hfatal eq_refl).
Defined.

(** [force_defer] on a deadline 10 ticks back. *)
Lemma force_defer_deadline_in_window_witness :
  exists now,
    1090 = u32 (now + TIMER_DEFER_REPEAT_TICKS 16000000)
    /\ 2610 = u32 (now + TIMER_REPEAT_TICKS 16000000)
    /\ [Ev_timer_read_time 1010; Ev_store_timer_repeat_until 2610] =
       [] ++ [Ev_timer_read_time now;
              Ev_store_timer_repeat_until
                (u32 (now + TIMER_REPEAT_TICKS 16000000))]
    /\ timer_is_before 1090 2610 = true
    /\ timer_is_before 2610 1090 = false
    /\ timer_from_us 16000000 5 < timer_from_us 16000000 100.
Proof.
  apply (force_defer_deadline_in_window
           16000000 (board := scripted_board) 1000 1090
           (boot 7 0 (mkScript [1010] [] []))
           (mkState 2610 0 (mkScript [] [] [])
                    [Ev_timer_read_time 1010;
                     Ev_store_timer_repeat_until 2610])).
  - lia.
  - reflexivity.
Defined.

(** The idle task when the next deadline is the cached one, and when it is a
    new one. *)
Lemma timer_task_sleeps_when_unchanged_witness :
  (exists (post : Z) (w' : State Script),
      timer_task 16000000 (boot 0 42 (mkScript [1000; 2000] [] [42])) =
      Done tt w'
      /\ count is_irq_wait (trace w') = 1%nat
      /\ trace w' =
         [Ev_irq_disable; Ev_timer_get_next 42; Ev_timer_read_time 1000;
          Ev_irq_wait; Ev_timer_read_time post;
          Ev_store_timer_repeat_until
            (u32 (post + TIMER_IDLE_REPEAT_TICKS 16000000));
          Ev_irq_enable; Ev_stats_note_sleep (u32 (post - 1000))]
      /\ timer_repeat_until w' =
         u32 (post + TIMER_IDLE_REPEAT_TICKS 16000000))
  /\ (exists w' : State Script,
        timer_task 16000000 (boot 0 42 (mkScript [1000; 2000] [] [77])) =
        Done tt w'
        /\ count is_irq_wait (trace w') = 0%nat
        /\ trace w' =
           [Ev_irq_disable; Ev_timer_get_next 77; Ev_timer_read_time 1000;
            Ev_store_timer_repeat_until 9000; Ev_irq_enable;
            Ev_store_last_timer 77]
        /\ timer_repeat_until w' = 9000
        /\ last_timer w' = 77).
Proof.
  split.
  - refine (proj1 (timer_task_sleeps_when_unchanged 16000000 (board := scripted_board) 42 1000
                     (boot 0 42 (mkScript [1000; 2000] [] [42]))
                     _ _ _ eq_refl eq_refl eq_refl) eq_refl).
  - refine (proj2 (timer_task_sleeps_when_unchanged 16000000 (board := scripted_board) 77 1000
                     (boot 0 42 (mkScript [1000; 2000] [] [77]))
                     _ _ _ eq_refl eq_refl eq_refl) _).
    discriminate.
Defined.

Lemma timer_task_caches_next_witness :
  exists w' : State Script,
    timer_task 16000000 (boot 0 42 (mkScript [1000; 2000] [] [77])) =
    Done tt w'
    /\ last_timer w' = 77
    /\ (77 <> 42 ->
        count is_store_last_timer (trace w') = 1%nat
        /\ In (Ev_store_last_timer 77) (trace w'))
    /\ (77 = 42 ->
        count is_store_last_timer (trace w') = 0%nat /\ last_timer w' = 42).
Proof.
  refine (timer_task_caches_next 16000000 (board := scripted_board) 77 (boot 0 42 (mkScript [1000; 2000] [] [77]))
            _ _ eq_refl eq_refl).
Defined.

(** ** More concrete runs *)

Lemma timer_is_before_trans_witness : timer_is_before 4294967280 100 = true.
Proof.
  apply (timer_is_before_trans 4294967280 16 100).
  - reflexivity.
  - reflexivity.
  - vm_compute. discriminate.
Defined.

Lemma timer_tick_constants_ordered_witness :
  0 < TIMER_MIN_TRY_TICKS 16000000 < TIMER_DEFER_REPEAT_TICKS 16000000
  /\ TIMER_DEFER_REPEAT_TICKS 16000000 < TIMER_REPEAT_TICKS 16000000
  /\ TIMER_REPEAT_TICKS 16000000 < TIMER_IDLE_REPEAT_TICKS 16000000
  /\ TIMER_IDLE_REPEAT_TICKS 16000000 < timer_from_us 16000000 1000 < 2 ^ 31.
Proof. apply (timer_tick_constants_ordered 16000000). lia. Defined.

(** A deadline 99010 ticks back, with a millisecond of 16000 ticks. *)
Lemma force_defer_tolerance_witness :
  force_defer 16000000 1000 (boot 7 0 (mkScript [100010] [] [])) =
  Fatal "Rescheduled timer in the past"
        (mkState 7 0 (mkScript [] [] [])
                 [Ev_timer_read_time 100010;
                  Ev_shutdown "Rescheduled timer in the past"]).
Proof.
  refine (proj1 (force_defer_tolerance
                   16000000 (board := scripted_board) 1000 100010
                   (boot 7 0 (mkScript [100010] [] []))
                   (mkState 7 0 (mkScript [] [] [])
                            [Ev_timer_read_time 100010])
                   _ eq_refl) eq_refl).
  lia.
Defined.

(** A pass that waits for a deadline 10 ticks ahead, dispatches it and then
    gets a deadline far ahead. *)
Lemma timer_dispatch_many_pass_shape_witness :
  let w := boot 5000 0 (mkScript [1000; 1005; 1012; 1020] [1010; 90000] []) in
  let w' :=
    mkState 5000 0 (mkScript [] [] [])
            [Ev_sched_timer_dispatch 1010; Ev_timer_read_time 1000;
             Ev_irq_enable; Ev_timer_read_time 1005; Ev_timer_read_time 1012;
             Ev_irq_disable; Ev_sched_timer_dispatch 90000;
             Ev_timer_read_time 1020] in
  exists t e,
    trace w' = trace w ++ t
    /\ pass_trace 16000000 5000 t e
    /\ pass_outcome 16000000 5000 0 e (timer_dispatch_many 16000000 5 w).
Proof.
  intros w w'.
  apply (timer_dispatch_many_pass_shape
           16000000 (board := scripted_board) 5 w w').
  reflexivity.
Defined.

Lemma timer_dispatch_many_irq_discipline_witness :
  let w := boot 5000 0 (mkScript [1000; 1005; 1012; 1020] [1010; 90000] []) in
  let w' :=
    mkState 5000 0 (mkScript [] [] [])
            [Ev_sched_timer_dispatch 1010; Ev_timer_read_time 1000;
             Ev_irq_enable; Ev_timer_read_time 1005; Ev_timer_read_time 1012;
             Ev_irq_disable; Ev_sched_timer_dispatch 90000;
             Ev_timer_read_time 1020] in
  exists t, trace w' = trace w ++ t /\ irq_discipline true t = Some true.
Proof.
  intros w w'.
  apply (timer_dispatch_many_irq_discipline
           16000000 (board := scripted_board) 5 w w').
  reflexivity.
Defined.

Lemma timer_dispatch_many_waits_until_due_witness :
  let w := boot 5000 0 (mkScript [1000; 1005; 1012; 1020] [1010; 90000] []) in
  let w' :=
    mkState 5000 0 (mkScript [] [] [])
            [Ev_sched_timer_dispatch 1010; Ev_timer_read_time 1000;
             Ev_irq_enable; Ev_timer_read_time 1005; Ev_timer_read_time 1012;
             Ev_irq_disable; Ev_sched_timer_dispatch 90000;
             Ev_timer_read_time 1020] in
  exists t,
    trace w' = trace w ++ t
    /\ forall n0 t0 : Z, waits_until_due n0 t0 t = true.
Proof.
  intros w w'.
  apply (timer_dispatch_many_waits_until_due
           16000000 (board := scripted_board) 5 w w').
  reflexivity.
Defined.

Lemma timer_dispatch_many_counts_witness :
  let w := boot 5000 0 (mkScript [1000; 1005; 1012; 1020] [1010; 90000] []) in
  let w' :=
    mkState 5000 0 (mkScript [] [] [])
            [Ev_sched_timer_dispatch 1010; Ev_timer_read_time 1000;
             Ev_irq_enable; Ev_timer_read_time 1005; Ev_timer_read_time 1012;
             Ev_irq_disable; Ev_sched_timer_dispatch 90000;
             Ev_timer_read_time 1020] in
  exists t,
    trace w' = trace w ++ t
    /\ count is_sched_timer_dispatch t = S (count is_irq_enable t)
    /\ count is_irq_enable t = count is_irq_disable t
    /\ (count is_store_timer_repeat_until t + count is_shutdown t <= 1)%nat
    /\ forallb is_dispatch_event t = true.
Proof.
  intros w w'.
  apply (timer_dispatch_many_counts
           16000000 (board := scripted_board) 5 w w').
  reflexivity.
Defined.

(** A pass that finds a deadline 99000 ticks back. *)
Lemma timer_dispatch_many_Fatal_inv_witness :
  let w := boot 0 0 (mkScript [100000; 100010] [1000] []) in
  let w' :=
    mkState 0 0 (mkScript [] [] [])
            [Ev_sched_timer_dispatch 1000; Ev_timer_read_time 100000;
             Ev_timer_read_time 100010;
             Ev_shutdown "Rescheduled timer in the past"] in
  "Rescheduled timer in the past"%string =
  "Rescheduled timer in the past"%string
  /\ timer_repeat_until w' = timer_repeat_until w
  /\ count is_shutdown (trace w') = S (count is_shutdown (trace w))
  /\ count is_store_timer_repeat_until (trace w') =
     count is_store_timer_repeat_until (trace w)
  /\ exists t,
    trace w' = trace w ++ t ++ [Ev_shutdown "Rescheduled timer in the past"].
Proof.
  intros w w'.
  apply (timer_dispatch_many_Fatal_inv
           16000000 (board := scripted_board) 1
           "Rescheduled timer in the past" w w').
  reflexivity.
Defined.

(** A pass entered 4000 ticks before the end of the repeat window. *)
Lemma timer_dispatch_many_window_witness :
  let w := boot 5000 0 (mkScript [1000; 1005; 1012; 1020] [1010; 90000] []) in
  let w2 :=
    mkState 5000 0 (mkScript [1005; 1012; 1020] [90000] [])
            [Ev_sched_timer_dispatch 1010; Ev_timer_read_time 1000] in
  (0 <= 4000 ->
   timer_dispatch_many 16000000 5 w =
   (irq_enable ;;
    spin_wait 4 1010 (s32 (u32 (1010 - 1000))) ;;
    irq_disable ;;
    dispatch_loop 16000000 4 (timer_repeat_until w)) w2)
  /\ (4000 < 0 ->
      timer_dispatch_many 16000000 5 w = force_defer 16000000 1010 w2).
Proof.
  intros w w2.
  apply (timer_dispatch_many_window
           16000000 (board := scripted_board) 4 1000 4000 0 1010 1000 w
           (mkState 5000 0 (mkScript [1000; 1005; 1012; 1020] [90000] [])
                    [Ev_sched_timer_dispatch 1010])
           w2).
  - reflexivity.
  - reflexivity.
  - reflexivity.
  - reflexivity.
  - reflexivity.
  - vm_compute. discriminate.
Defined.

(** Two invocations of the idle task that see the deadline 77. *)
Lemma timer_task_second_sighting_sleeps_witness :
  let w' :=
    mkState 9000 77 (mkScript [2000; 3000] [] [77])
            [Ev_irq_disable; Ev_timer_get_next 77; Ev_timer_read_time 1000;
             Ev_store_timer_repeat_until 9000; Ev_irq_enable;
             Ev_store_last_timer 77] in
  exists w'',
    timer_task 16000000 w' = Done tt w''
    /\ count is_irq_wait (trace w'') = S (count is_irq_wait (trace w'))
    /\ last_timer w'' = 77.
Proof.
  intros w'.
  eapply (timer_task_second_sighting_sleeps
            16000000 (board := scripted_board) 77
            (boot 0 42 (mkScript [1000; 2000; 3000] [] [77; 77]))).
  - reflexivity.
  - reflexivity.
  - reflexivity.
  - reflexivity.
  - reflexivity.
Defined.

(** A sleep of 16 ticks across the wrap of the counter. *)
Lemma timer_task_sleep_duration_witness :
  exists w' t,
    timer_task 16000000 (boot 0 42 (mkScript [4294967290; 10] [] [42])) =
    Done tt w'
    /\ trace w' = [] ++ t ++ [Ev_stats_note_sleep 16].
Proof.
  eapply (timer_task_sleep_duration
            16000000 (board := scripted_board) 42 4294967290 10 4294967290 16
            (boot 0 42 (mkScript [4294967290; 10] [] [42]))).
  - reflexivity.
  - reflexivity.
  - reflexivity.
  - reflexivity.
  - reflexivity.
  - reflexivity.
  - reflexivity.
  - reflexivity.
  - lia.
Defined.

(** The shutdown hook at the readings 1000 and 2000, with an idle window of
    8000 ticks. *)
Lemma timer_irq_shutdown_idempotent_witness :
  let w := boot 0 0 (mkScript [1000; 2000] [] []) in
  let w2 :=
    mkState 9000 0 (mkScript [2000] [] [])
            [Ev_timer_read_time 1000; Ev_store_timer_repeat_until 9000] in
  timer_repeat_until w2 = 9000
  /\ exists w',
    (timer_irq_shutdown 16000000 ;; timer_irq_shutdown 16000000) w =
    Done tt w'
    /\ timer_repeat_until w' = 10000
    /\ last_timer w' = 0
    /\ trace w' =
       [Ev_timer_read_time 1000; Ev_store_timer_repeat_until 9000;
        Ev_timer_read_time 2000; Ev_store_timer_repeat_until 10000].
Proof.
  intros w w2.
  eapply (timer_irq_shutdown_idempotent
            16000000 (board := scripted_board) 1000 2000 w _ w2).
  - reflexivity.
  - reflexivity.
  - reflexivity.
Defined.

Lemma timer_from_us_below_MHz_witness : timer_from_us 500000 1000 = 0.
Proof. apply (timer_from_us_below_MHz 500000 1000). lia. Defined.
